(** * StockSense: feature engineering, risk model and prediction service

    A shallow embedding of [stocksense/src/model.py] and
    [stocksense/src/predictor.py].

    Conventions of the embedding.

    - Numbers.  Python and numpy floats are modelled by [fnum]: an exact
      rational, or one of the IEEE specials [PInf], [NInf], [NaN].  Rounding
      and overflow are not modelled, and neither is the sign of zero (a
      division of a positive number by zero is [PInf]).
    - Exceptions.  Code that can raise returns a [result]: [Ok v] or
      [Raise e], with [e] one of the Python exception classes the code can
      meet.
    - Tables.  A pandas DataFrame is a row count and a finite map from column
      names to columns; a column is a list of cells, a cell a number or a
      string (a missing value is the number NaN, as in pandas).  Row labels
      are not modelled.
    - Library code (scikit-learn, the sample standard deviation) is an
      instance of the class [Sklearn]; what it raises is a [LibraryError].
    - The tail of [predictor.py] (from [get_high_risk_products] on) is stored
      in the repository with its line breaks escaped; it is read here with the
      line breaks expanded. *)

From Stdlib Require Import QArith Qminmax Lqa Lia ZArith List Sorting.Permutation Sorting.Sorted.
From stdpp Require Import base option list gmap strings fin_maps.

Local Open Scope Q_scope.

(** ** Numbers *)

Module Num.

Inductive fnum : Type :=
| Fin (q : Q)
| PInf
| NInf
| NaN.

Definition Qlt_bool (x y : Q) : bool := negb (Qle_bool y x).

(** [x < y] on floats: false as soon as one side is NaN. *)
Definition flt (x y : fnum) : bool :=
  match x, y with
  | NaN, _ | _, NaN => false
  | Fin p, Fin q => Qlt_bool p q
  | NInf, (Fin _ | PInf) => true
  | Fin _, PInf => true
  | _, _ => false
  end.

Definition fgt (x y : fnum) : bool := flt y x.

(** [x <= y] on floats. *)
Definition fle (x y : fnum) : bool :=
  match x, y with
  | NaN, _ | _, NaN => false
  | Fin p, Fin q => Qle_bool p q
  | NInf, _ => true
  | _, PInf => true
  | _, _ => false
  end.

Definition is_zero (x : fnum) : bool :=
  match x with Fin q => Qeq_bool q 0 | _ => false end.

Definition is_nan (x : fnum) : bool :=
  match x with NaN => true | _ => false end.

Definition fneg (x : fnum) : fnum :=
  match x with
  | Fin q => Fin (- q)
  | PInf => NInf
  | NInf => PInf
  | NaN => NaN
  end.

Definition fadd (x y : fnum) : fnum :=
  match x, y with
  | NaN, _ | _, NaN => NaN
  | Fin p, Fin q => Fin (p + q)
  | PInf, NInf | NInf, PInf => NaN
  | PInf, _ | _, PInf => PInf
  | NInf, _ | _, NInf => NInf
  end.

Definition fsub (x y : fnum) : fnum := fadd x (fneg y).

Definition fmul (x y : fnum) : fnum :=
  match x, y with
  | NaN, _ | _, NaN => NaN
  | Fin p, Fin q => Fin (p * q)
  | Fin p, PInf | PInf, Fin p =>
      if Qeq_bool p 0 then NaN else if Qlt_bool 0 p then PInf else NInf
  | Fin p, NInf | NInf, Fin p =>
      if Qeq_bool p 0 then NaN else if Qlt_bool 0 p then NInf else PInf
  | PInf, PInf | NInf, NInf => PInf
  | PInf, NInf | NInf, PInf => NInf
  end.

(** IEEE division, as numpy applies it to float columns: a zero divisor
    gives an infinity or NaN, never an exception. *)
Definition fdiv (x y : fnum) : fnum :=
  match x, y with
  | NaN, _ | _, NaN => NaN
  | Fin p, Fin q =>
      if Qeq_bool q 0
      then (if Qeq_bool p 0 then NaN else if Qlt_bool 0 p then PInf else NInf)
      else Fin (p / q)
  | Fin _, (PInf | NInf) => Fin 0
  | PInf, Fin q => if Qlt_bool q 0 then NInf else PInf
  | NInf, Fin q => if Qlt_bool q 0 then PInf else NInf
  | (PInf | NInf), (PInf | NInf) => NaN
  end.

End Num.
Export Num.

(** ** Python values, exceptions and builtins *)

Module Py.

Inductive exn : Type :=
| KeyError (key : string)
| ValueError (msg : string)
| TypeError
| AttributeError
| ZeroDivisionError
| IndexError
| FileNotFoundError
| LibraryError (msg : string).

Inductive result (A : Type) : Type :=
| Ok (a : A)
| Raise (e : exn).
Arguments Ok {A} a.
Arguments Raise {A} e.

Definition bind {A B} (m : result A) (f : A -> result B) : result B :=
  match m with
  | Ok a => f a
  | Raise e => Raise e
  end.

Notation "x <- m ;; k" := (bind m (fun x => k))
  (at level 100, m at next level, right associativity).

Definition raises {A} (m : result A) : Prop := exists e, m = Raise e.
Definition returns {A} (m : result A) : Prop := exists a, m = Ok a.

(** [try: body except Exception as e: handler]. *)
Definition try_except {A} (body : result A) (handler : exn -> result A) : result A :=
  match body with
  | Ok a => Ok a
  | Raise e => handler e
  end.

(** A scalar held in a dict or in a table: a number or a string. *)
Inductive cell : Type :=
| CNum (x : fnum)
| CStr (s : string).

Definition num_of_Z (z : Z) : cell := CNum (Fin (inject_Z z)).

(** [a < b]; ordering a string against a number is a TypeError. *)
Definition py_lt (a b : cell) : result bool :=
  match a, b with
  | CNum x, CNum y => Ok (flt x y)
  | CStr s, CStr t => Ok (String.ltb s t)
  | _, _ => Raise TypeError
  end.

Definition py_gt (a b : cell) : result bool := py_lt b a.

(** The builtin [max(a, b)]: [a] unless [b > a]. *)
Definition py_max (a b : cell) : result cell :=
  g <- py_gt b a ;; Ok (if g : bool then b else a).

(** [max(a, b)] and [min(a, b)] when both are numbers: no exception. *)
Definition num_max (a b : fnum) : fnum := if fgt b a then b else a.
Definition num_min (a b : fnum) : fnum := if flt b a then b else a.

(** [a / b] on Python scalars: a zero divisor raises. *)
Definition py_truediv (a b : cell) : result fnum :=
  match a, b with
  | CNum x, CNum y =>
      if is_zero y then Raise ZeroDivisionError else Ok (fdiv x y)
  | _, _ => Raise TypeError
  end.

(** [a * 2]: on a string this is repetition. *)
Definition py_mul2 (a : cell) : cell :=
  match a with
  | CNum x => CNum (fmul x (Fin 2))
  | CStr s => CStr (s +:+ s)
  end.


End Py.
Export Py.

(** ** The heuristic and the risk categories ([predictor.py]) *)

Module Heuristic.

(** Lines 148-152 of [predict_single_product] and 203-208 of [predict_batch]:
    the two copies differ only in where [get] reads ([product_data.get] or
    [row.get]).  Returns the risk score and the 0/1 prediction. *)
Definition fallback (get : string -> cell -> cell) : result (fnum * Z) :=
  m <- py_max (get "avg_daily_demand" (CNum (Fin 1))) (CNum (Fin 1)) ;;
  stock_days <- py_truediv (get "current_stock" (CNum (Fin 0))) m ;;
  let lead_time := get "supplier_lead_time" (CNum (Fin 7)) in
  q <- py_truediv (CNum stock_days) (py_mul2 lead_time) ;;
  let risk_score := num_max (Fin 0) (num_min (Fin 1) (fsub (Fin 1) q)) in
  Ok (risk_score, if fgt risk_score (Fin (1 # 2)) then 1%Z else 0%Z).

(** [_categorize_risk]. *)
Definition _categorize_risk (risk_score : fnum) : string :=
  if flt risk_score (Fin (3 # 10)) then "Low Risk"
  else if flt risk_score (Fin (7 # 10)) then "Medium Risk"
  else "High Risk".

(** The stock health score as the specification words it: a demand below
    1 counts as 1. *)
Definition spec_stock_coverage_days (current_stock avg_daily_demand : Q) : Q :=
  current_stock / (if Qlt_bool avg_daily_demand 1 then 1 else avg_daily_demand).

Definition spec_stock_health_score
  (current_stock avg_daily_demand supplier_lead_time : Q) : Q :=
  spec_stock_coverage_days current_stock avg_daily_demand / supplier_lead_time.




End Heuristic.
Export Heuristic.

(** ** Tables: the part of pandas the code uses *)

Module Frame.

(** [categorical] gives the categories of the columns of Categorical dtype.
    The tables the service is given are read from CSV files or built from
    dicts, so their columns are plain; a column is Categorical when
    [pd.cut] made it, or a [map] of such a column did. *)
Record DataFrame : Type := mkFrame {
  nrows : nat;
  cols : gmap string (list cell);
  categorical : gmap string (list cell)
}.

(** All columns have [nrows] cells. *)
Definition wf_frame (df : DataFrame) : Prop :=
  map_Forall (fun _ col => length col = nrows df) (cols df).

(** A column of numbers (NaN included): no string in it. *)
Definition is_num (c : cell) : bool :=
  match c with CNum _ => true | CStr _ => false end.
Definition numeric (col : list cell) : Prop := forallb is_num col = true.

(** [c in df.columns]. *)
Definition has_col (df : DataFrame) (c : string) : bool :=
  match cols df !! c with Some _ => true | None => false end.

(** [df[c]]. *)
Definition getitem (df : DataFrame) (c : string) : result (list cell) :=
  match cols df !! c with
  | Some col => Ok col
  | None => Raise (KeyError c)
  end.

(** [df[c] = series], the series being computed from columns of [df] and
    of a plain dtype. *)
Definition setitem (df : DataFrame) (c : string) (col : list cell) : DataFrame :=
  {| nrows := nrows df; cols := <[c := col]> (cols df);
     categorical := delete c (categorical df) |}.

(** [df[c] = series] for a Categorical series of the given categories. *)
Definition setitem_categorical (df : DataFrame) (c : string)
  (categories col : list cell) : DataFrame :=
  {| nrows := nrows df; cols := <[c := col]> (cols df);
     categorical := <[c := categories]> (categorical df) |}.

(** [df[c] = scalar]. *)
Definition set_scalar (df : DataFrame) (c : string) (v : cell) : DataFrame :=
  setitem df c (replicate (nrows df) v).

(** [df[c] = values] for a list or an array: the lengths must agree. *)
Definition setitem_list (df : DataFrame) (c : string) (values : list cell) : result DataFrame :=
  if (length values =? nrows df)%nat then Ok (setitem df c values)
  else Raise (ValueError "Length of values does not match length of index").

(** The numbers of a column; arithmetic on a string is a TypeError. *)
Fixpoint nums (col : list cell) : result (list fnum) :=
  match col with
  | [] => Ok []
  | CNum x :: r => xs <- nums r ;; Ok (x :: xs)
  | CStr _ :: _ => Raise TypeError
  end.

Definition of_nums (xs : list fnum) : list cell := map CNum xs.

(** [a / b] on columns. *)
Definition series_div (a b : list cell) : result (list cell) :=
  xs <- nums a ;; ys <- nums b ;; Ok (of_nums (zip_with fdiv xs ys)).

(** [a / k]. *)
Definition series_div_scalar (a : list cell) (k : fnum) : result (list cell) :=
  xs <- nums a ;; Ok (of_nums (map (fun x => fdiv x k) xs)).

(** [a * 2]. *)
Definition series_mul2 (a : list cell) : list cell := map py_mul2 a.

Definition of_bool (b : bool) : cell := CNum (Fin (if b then 1 else 0)).

(** [(a > k).astype(int)]. *)
Definition series_gt_scalar (a : list cell) (k : fnum) : result (list cell) :=
  xs <- nums a ;; Ok (map (fun x => of_bool (fgt x k)) xs).

(** [a.fillna(v)]. *)
Definition fillna (v : cell) (a : list cell) : list cell :=
  map (fun c => match c with CNum NaN => v | _ => c end) a.

(** [pd.cut(a, bins=[b0, b1, b2, b3, inf], labels=[l1, l2, l3, l4])]:
    right-closed intervals; a value in no interval is missing. *)
Definition cut_value (b0 b1 b2 b3 : Q) (l1 l2 l3 l4 : string) (x : fnum) : cell :=
  if flt (Fin b0) x && fle x (Fin b1) then CStr l1
  else if flt (Fin b1) x && fle x (Fin b2) then CStr l2
  else if flt (Fin b2) x && fle x (Fin b3) then CStr l3
  else if flt (Fin b3) x && fle x PInf then CStr l4
  else CNum NaN.

Definition cut (b0 b1 b2 b3 : Q) (l1 l2 l3 l4 : string) (a : list cell) : result (list cell) :=
  xs <- nums a ;; Ok (map (cut_value b0 b1 b2 b3 l1 l2 l3 l4) xs).

Definition dropna (xs : list fnum) : list fnum :=
  List.filter (fun x => negb (is_nan x)) xs.

Fixpoint insert_asc (x : fnum) (l : list fnum) : list fnum :=
  match l with
  | [] => [x]
  | y :: r => if fle x y then x :: l else y :: insert_asc x r
  end.

Definition sort_asc (l : list fnum) : list fnum := foldr insert_asc [] l.

Definition fsum (xs : list fnum) : fnum := foldr fadd (Fin 0) xs.

Definition flen (xs : list fnum) : fnum := Fin (inject_Z (Z.of_nat (length xs))).

(** [a.median()], missing values skipped. *)
Definition median (xs : list fnum) : fnum :=
  let s := sort_asc (dropna xs) in
  let n := length s in
  if (n =? 0)%nat then NaN
  else if Nat.odd n then nth (n / 2)%nat s NaN
  else fdiv (fadd (nth (n / 2 - 1)%nat s NaN) (nth (n / 2)%nat s NaN)) (Fin 2).

(** [mean], [max] and [sum] of a group, missing values skipped. *)
Definition nanmean (xs : list fnum) : fnum :=
  match dropna xs with
  | [] => NaN
  | ys => fdiv (fsum ys) (flen ys)
  end.

Definition nanmax (xs : list fnum) : fnum :=
  match dropna xs with
  | [] => NaN
  | y :: ys => foldr (fun a b => num_max b a) y ys
  end.

Definition nansum (xs : list fnum) : fnum := fsum (dropna xs).

(** [groupby(key)]: the values of each key, in table order.  Keys are the
    product identifiers, strings (a missing key is dropped). *)
Definition group_values {A} (keys : list cell) (vals : list A) : gmap string (list A) :=
  foldr (fun kv g =>
           match kv.1 with
           | CStr p => <[p := kv.2 :: default [] (g !! p)]> g
           | CNum _ => g
           end) ∅ (zip keys vals).

(** One row of [sales_agg]. *)
Record SalesAgg : Type := mkAgg {
  agg_mean : fnum;
  agg_std : fnum;
  agg_max : fnum;
  agg_sum : fnum
}.

(** The columns of the right table that are added to the left one by
    [left.merge(right, on='product_id', how='left')]: a name both tables
    have is given the suffixes [_x] (left) and [_y] (right). *)
Definition add_merged (left : DataFrame) (name : string) (col : list cell)
  (df : DataFrame) : DataFrame :=
  match cols left !! name with
  | Some old =>
      {| nrows := nrows df;
         cols := <[name +:+ "_y" := col]>
                   (<[name +:+ "_x" := old]> (delete name (cols df)));
         categorical :=
           delete (name +:+ "_y")
             (match categorical left !! name with
              | Some categories =>
                  <[name +:+ "_x" := categories]> (delete name (categorical df))
              | None => delete (name +:+ "_x") (delete name (categorical df))
              end) |}
  | None => setitem df name col
  end.

Definition merge_left (left : DataFrame) (right : gmap string SalesAgg) : result DataFrame :=
  ids <- getitem left "product_id" ;;
  let found := map (fun c => match c with CStr p => right !! p | CNum _ => None end) ids in
  let column (f : SalesAgg -> fnum) :=
    map (fun o : option SalesAgg => CNum (from_option f NaN o)) found in
  Ok (add_merged left "total_stockouts" (column agg_sum)
       (add_merged left "max_daily_demand" (column agg_max)
         (add_merged left "demand_std" (column agg_std)
           (add_merged left "avg_daily_demand" (column agg_mean) left)))).

(** [row.get(key, default)] for the row at position [i] of [df.iterrows()]. *)
Definition row_get (df : DataFrame) (i : nat) (key : string) (default : cell) : cell :=
  match cols df !! key with
  | Some col => nth i col (CNum NaN)
  | None => default
  end.

(** [df.sort_values(c, ascending=False)]: larger first, missing last. *)
Definition before (a b : fnum) : bool :=
  match a, b with
  | _, NaN => true
  | NaN, _ => false
  | _, _ => fle b a
  end.

Fixpoint insert_desc (key : nat -> fnum) (i : nat) (l : list nat) : list nat :=
  match l with
  | [] => [i]
  | j :: r => if before (key i) (key j) then i :: l else j :: insert_desc key i r
  end.

Definition argsort_desc (keys : list fnum) : list nat :=
  foldr (insert_desc (fun i => nth i keys NaN)) [] (seq 0 (length keys)).

Definition take_rows (order : list nat) (df : DataFrame) : DataFrame :=
  {| nrows := length order;
     cols := (fun col => map (fun i => nth i col (CNum NaN)) order) <$> cols df;
     categorical := categorical df |}.

Definition sort_values_desc (df : DataFrame) (c : string) : result DataFrame :=
  col <- getitem df c ;;
  keys <- nums col ;;
  Ok (take_rows (argsort_desc keys) df).

End Frame.
Export Frame.

(** ** The library interface *)

Module Lib.

(** The feature matrix [df[available_cols]]: the selected columns, in order. *)
Definition matrix : Type := list (string * list cell).

(** What a library call gives: an error message or a value. *)
Definition lib_result (A : Type) : Type := (string + A)%type.

Definition lift {A} (r : lib_result A) : result A :=
  match r with
  | inl msg => Raise (LibraryError msg)
  | inr a => Ok a
  end.

(** scikit-learn (and xgboost) as the code uses it.  [fit kind X y] builds
    the classifier [kind] names with the constants of [train] and fits it;
    [clf_predict_proba] is [predict_proba(X)[:, 1]].  [std] is pandas'
    sample standard deviation of a group.  [fillna_validates] is the one
    point where the installed pandas matters to the code: whether
    [fillna] on a Categorical checks that the fill value is one of the
    categories also when no value is missing (pandas 2.2 does; when a
    value is missing, every version checks). *)
Class Sklearn : Type := {
  classifier : Type;
  fitted_scaler : Type;
  std : list fnum -> fnum;
  fillna_validates : bool;
  train_test_split :
    matrix -> list cell -> lib_result (matrix * matrix * list cell * list cell);
  fit : string -> matrix -> list cell -> lib_result classifier;
  clf_predict : classifier -> matrix -> lib_result (list Z);
  clf_predict_proba : classifier -> matrix -> lib_result (list fnum);
  scaler_fit_transform : matrix -> lib_result (fitted_scaler * matrix);
  scaler_transform : fitted_scaler -> matrix -> lib_result matrix;
  roc_auc_score : list cell -> list fnum -> lib_result fnum;
  classification_report : list cell -> list Z -> lib_result unit
}.

End Lib.
Export Lib.

(** ** [StockSenseModel] ([model.py]) *)

Module Model.

(** A [LabelEncoder]: [classes_] exists once it has been fitted. *)
Record LabelEncoder : Type := mkEncoder { classes_ : option (list string) }.

Fixpoint insert_str (s : string) (l : list string) : list string :=
  match l with
  | [] => [s]
  | t :: r =>
      if String.eqb s t then l
      else if String.ltb s t then s :: l
      else t :: insert_str s r
  end.

(** [np.unique] on labels: sorted, without repetition. *)
Definition unique_sorted (l : list string) : list string := foldr insert_str [] l.

Fixpoint labels (col : list cell) : result (list string) :=
  match col with
  | [] => Ok []
  | CStr s :: r => ss <- labels r ;; Ok (s :: ss)
  | CNum _ :: _ => Raise TypeError
  end.

Fixpoint index_of (s : string) (l : list string) : option nat :=
  match l with
  | [] => None
  | t :: r => if String.eqb s t then Some 0%nat else S <$> index_of s r
  end.

(** [encoder.transform(y)] for fitted classes. *)
Fixpoint transform (classes : list string) (y : list string) : result (list Z) :=
  match y with
  | [] => Ok []
  | s :: r =>
      match index_of s classes with
      | Some i => zs <- transform classes r ;; Ok (Z.of_nat i :: zs)
      | None => Raise (ValueError "y contains previously unseen labels")
      end
  end.

(** [encoder.fit_transform(y)]: the fitted classes and the codes of [y]. *)
Definition fit_transform (y : list cell) : result (list string * list Z) :=
  ss <- labels y ;;
  let classes := unique_sorted ss in
  codes <- transform classes ss ;;
  Ok (classes, codes).

(** [dict(zip(keys, values))]: a later pair overrides an earlier one. *)
Definition dict_zip (keys : list string) (values : list Z) : gmap string Z :=
  fold_left (fun d kv => <[kv.1 := kv.2]> d) (zip keys values) ∅.

(** [series.map(d)]: a value that is no key of [d] becomes missing. *)
Definition series_map (d : gmap string Z) (a : list cell) : list cell :=
  map (fun c => match c with
                | CStr s => match d !! s with
                            | Some z => num_of_Z z
                            | None => CNum NaN
                            end
                | CNum _ => CNum NaN
                end) a.

Definition categorical_cols : list string :=
  ["category"; "subcategory"; "price_category"; "demand_category"].

Definition feature_cols : list string :=
  ["price"; "supplier_lead_time"; "minimum_stock_level"; "seasonal_factor";
   "avg_daily_demand"; "demand_std"; "max_daily_demand"; "total_stockouts";
   "weekend_sales_ratio"; "holiday_sales_ratio"; "current_stock";
   "days_since_restock"; "demand_variability"; "stock_coverage_days";
   "category_encoded"; "subcategory_encoded"; "price_category_encoded";
   "demand_category_encoded"; "stockout_rate"; "is_fast_moving";
   "lead_time_risk"; "is_seasonal"; "stock_health_score"].

(** The labels of the two [pd.cut] calls of [engineer_features]: the
    categories of the columns they make. *)
Definition price_labels : list cell :=
  [CStr "Low"; CStr "Medium"; CStr "High"; CStr "Premium"].
Definition demand_labels : list cell :=
  [CStr "Low"; CStr "Medium"; CStr "High"; CStr "Very High"].

(** [engineer_features]. *)
Definition engineer_features (data : DataFrame) : result DataFrame :=
  let df := data in
  dv <- getitem df "demand_variability" ;;
  let df := setitem df "demand_variability" (fillna (CNum (Fin 0)) dv) in
  price <- getitem df "price" ;;
  pc <- cut 0 20 100 500 "Low" "Medium" "High" "Premium" price ;;
  let df := setitem_categorical df "price_category" price_labels pc in
  avg <- getitem df "avg_daily_demand" ;;
  dc <- cut 0 10 50 100 "Low" "Medium" "High" "Very High" avg ;;
  let df := setitem_categorical df "demand_category" demand_labels dc in
  ts <- getitem df "total_stockouts" ;;
  sr <- series_div_scalar ts (Fin 365) ;;
  let df := setitem df "stockout_rate" sr in
  avg <- getitem df "avg_daily_demand" ;;
  xs <- nums avg ;;
  fm <- series_gt_scalar avg (median xs) ;;
  let df := setitem df "is_fast_moving" fm in
  lt <- getitem df "supplier_lead_time" ;;
  ltr <- series_gt_scalar lt (Fin 7) ;;
  let df := setitem df "lead_time_risk" ltr in
  sf <- getitem df "seasonal_factor" ;;
  seas <- series_gt_scalar sf (Fin (3 # 2)) ;;
  let df := setitem df "is_seasonal" seas in
  scd <- getitem df "stock_coverage_days" ;;
  lt <- getitem df "supplier_lead_time" ;;
  shs <- series_div scd lt ;;
  Ok (setitem df "stock_health_score" shs).

(** The raw columns [engineer_features] reads, in the order it first reads
    them. *)
Definition required_raw_columns : list string :=
  ["demand_variability"; "price"; "avg_daily_demand"; "total_stockouts";
   "supplier_lead_time"; "seasonal_factor"; "stock_coverage_days"].

Section WithSklearn.
Context `{SK : Sklearn}.

(** [self.model] and [self.scaler] hold an object that has been fitted or
    (when fitting raised) one that has not. *)
Inductive model_obj : Type :=
| UnfittedModel (kind : string)
| FittedModel (c : classifier).

Inductive scaler_obj : Type :=
| UnfittedScaler
| FittedScaler (s : fitted_scaler).

Record StockSenseModel : Type := mkModel {
  model : option model_obj;
  scaler : option scaler_obj;
  encoders : gmap string LabelEncoder;
  feature_names : list string;
  is_trained : bool
}.

(** [__init__]. *)
Definition init : StockSenseModel :=
  {| model := None; scaler := None; encoders := ∅;
     feature_names := []; is_trained := false |}.

Definition set_encoders (st : StockSenseModel) (e : gmap string LabelEncoder) :=
  {| model := model st; scaler := scaler st; encoders := e;
     feature_names := feature_names st; is_trained := is_trained st |}.

Definition set_feature_names (st : StockSenseModel) (f : list string) :=
  {| model := model st; scaler := scaler st; encoders := encoders st;
     feature_names := f; is_trained := is_trained st |}.

Definition set_model (st : StockSenseModel) (m : option model_obj) :=
  {| model := m; scaler := scaler st; encoders := encoders st;
     feature_names := feature_names st; is_trained := is_trained st |}.

Definition set_scaler (st : StockSenseModel) (s : option scaler_obj) :=
  {| model := model st; scaler := s; encoders := encoders st;
     feature_names := feature_names st; is_trained := is_trained st |}.

Definition set_is_trained (st : StockSenseModel) (b : bool) :=
  {| model := model st; scaler := scaler st; encoders := encoders st;
     feature_names := feature_names st; is_trained := b |}.

(** The codes an encoder fitted on [classes] gives a plain column at
    inference time (lines 98-101), [codes] being its codes of its own
    classes. *)
Definition encode_with (classes : list string) (codes : list Z) (y : list cell)
  : list cell :=
  fillna (num_of_Z (-1)) (series_map (dict_zip classes codes) y).

(** One round of the loop of [prepare_features] with [fit_encoders=True]. *)
Definition encode_fit (col : string) (st : StockSenseModel) (df : DataFrame)
  : StockSenseModel * result DataFrame :=
  let st1 :=
    match encoders st !! col with
    | Some _ => st
    | None => set_encoders st (<[col := mkEncoder None]> (encoders st))
    end in
  match getitem df col with
  | Raise e => (st1, Raise e)
  | Ok y =>
      match fit_transform y with
      | Raise e => (st1, Raise e)
      | Ok (classes, codes) =>
          (set_encoders st1 (<[col := mkEncoder (Some classes)]> (encoders st1)),
           Ok (setitem df (col +:+ "_encoded") (map num_of_Z codes)))
      end
  end.

(** [series.map(d)] on a Categorical maps the categories: when every
    category has a code and no two share one, the result is again a
    Categorical, of these codes; otherwise it is a plain column. *)
Fixpoint category_codes (d : gmap string Z) (categories : list cell)
  : option (list Z) :=
  match categories with
  | [] => Some []
  | CStr s :: rest =>
      match d !! s, category_codes d rest with
      | Some z, Some zs => Some (z :: zs)
      | _, _ => None
      end
  | CNum _ :: _ => None
  end.

Definition map_categories (d : gmap string Z) (categories : list cell)
  : option (list Z) :=
  match category_codes d categories with
  | Some codes => if bool_decide (NoDup codes) then Some codes else None
  | None => None
  end.

Definition is_missing (c : cell) : bool :=
  match c with CNum NaN => true | _ => false end.

(** Lines 98-101 on a Categorical column whose [map] is a Categorical
    again: -1 is none of its categories, so [fillna(-1)] raises where it
    checks the fill value, and leaves the column as it is elsewhere. *)
Definition fillna_categorical (mapped : list cell) : result (list cell) :=
  if fillna_validates || existsb is_missing mapped then Raise TypeError
  else Ok mapped.

(** One round of the loop with [fit_encoders=False]: nothing of [self] is
    assigned. *)
Definition encode_known (col : string) (st : StockSenseModel) (df : DataFrame)
  : result DataFrame :=
  match encoders st !! col with
  | Some enc =>
      y <- getitem df col ;;
      classes <- match classes_ enc with
                 | Some cl => Ok cl
                 | None => Raise AttributeError
                 end ;;
      codes <- transform classes classes ;;
      let d := dict_zip classes codes in
      match categorical df !! col with
      | Some categories =>
          match map_categories d categories with
          | Some new_categories =>
              encoded <- fillna_categorical (series_map d y) ;;
              Ok (setitem_categorical df (col +:+ "_encoded")
                    (map num_of_Z new_categories) encoded)
          | None =>
              Ok (setitem df (col +:+ "_encoded") (encode_with classes codes y))
          end
      | None =>
          Ok (setitem df (col +:+ "_encoded") (encode_with classes codes y))
      end
  | None => Ok df
  end.

Fixpoint encode_loop (fit_encoders : bool) (todo : list string)
  (st : StockSenseModel) (df : DataFrame) : StockSenseModel * result DataFrame :=
  match todo with
  | [] => (st, Ok df)
  | col :: rest =>
      if fit_encoders then
        match encode_fit col st df with
        | (st1, Ok df1) => encode_loop fit_encoders rest st1 df1
        | (st1, Raise e) => (st1, Raise e)
        end
      else
        match encode_known col st df with
        | Ok df1 => encode_loop fit_encoders rest st df1
        | Raise e => (st, Raise e)
        end
  end.

Definition select (df : DataFrame) (names : list string) : matrix :=
  omap (fun c => (fun col => (c, col)) <$> cols df !! c) names.

(** [prepare_features]: the new state of [self], and [(X, available_cols)]. *)
Definition prepare_features (st : StockSenseModel) (data : DataFrame)
  (fit_encoders : bool) : StockSenseModel * result (matrix * list string) :=
  match encode_loop fit_encoders categorical_cols st data with
  | (st1, Raise e) => (st1, Raise e)
  | (st1, Ok df_model) =>
      let available_cols := List.filter (has_col df_model) feature_cols in
      let X := select df_model available_cols in
      ((if fit_encoders then set_feature_names st1 available_cols else st1),
       Ok (X, available_cols))
  end.

Definition model_predict (m : option model_obj) (X : matrix) : result (list Z) :=
  match m with
  | None => Raise AttributeError
  | Some (UnfittedModel _) => Raise (LibraryError "NotFittedError")
  | Some (FittedModel c) => lift (clf_predict c X)
  end.

Definition model_predict_proba (m : option model_obj) (X : matrix) : result (list fnum) :=
  match m with
  | None => Raise AttributeError
  | Some (UnfittedModel _) => Raise (LibraryError "NotFittedError")
  | Some (FittedModel c) => lift (clf_predict_proba c X)
  end.

Definition apply_scaler (s : option scaler_obj) (X : matrix) : result matrix :=
  match s with
  | None => Ok X
  | Some UnfittedScaler => Raise (LibraryError "NotFittedError")
  | Some (FittedScaler sc) => lift (scaler_transform sc X)
  end.

Definition not_trained_msg : string :=
  "Model must be trained before making predictions".

(** [predict]: the state of [self] is read only ([prepare_features] is
    called with [fit_encoders=False]). *)
Definition predict (st : StockSenseModel) (data : DataFrame)
  : result (list Z * list fnum) :=
  if negb (is_trained st) then Raise (ValueError not_trained_msg)
  else
    data_engineered <- engineer_features data ;;
    Xc <- (prepare_features st data_engineered false).2 ;;
    X <- apply_scaler (scaler st) Xc.1 ;;
    predictions <- model_predict (model st) X ;;
    probabilities <- model_predict_proba (model st) X ;;
    Ok (predictions, probabilities).

(** What [save_model] writes and [joblib.load] reads: a dict; a field is
    [None] when the dict has no such key. *)
Record Artifact : Type := mkArtifact {
  art_model : option (option model_obj);
  art_scaler : option (option scaler_obj);
  art_encoders : option (gmap string LabelEncoder);
  art_feature_names : option (list string);
  art_timestamp : option string
}.

Record TrainingReport : Type := mkReport {
  auc_score : fnum;
  accuracy : fnum;
  model_type : string
}.

(** [(y_pred == y_test).mean()]. *)
Definition label_eq (p : Z) (c : cell) : bool :=
  match c with
  | CNum (Fin q) => Qeq_bool q (inject_Z p)
  | _ => false
  end.

Definition accuracy_of (y_pred : list Z) (y_test : list cell) : fnum :=
  let hits := List.filter (fun b : bool => b) (zip_with label_eq y_pred y_test) in
  fdiv (Fin (inject_Z (Z.of_nat (length hits))))
       (Fin (inject_Z (Z.of_nat (length y_test)))).

(** The three branches of [train] on [model_type]; gives [X_test], scaled
    in the logistic branch. *)
Definition fit_model (st : StockSenseModel) (kind : string)
  (X_train X_test : matrix) (y_train : list cell) : StockSenseModel * result matrix :=
  if bool_decide (kind = "random_forest" \/ kind = "xgboost") then
    let st1 := set_model st (Some (UnfittedModel kind)) in
    match lift (fit kind X_train y_train) with
    | Raise e => (st1, Raise e)
    | Ok c => (set_model st1 (Some (FittedModel c)), Ok X_test)
    end
  else if bool_decide (kind = "logistic") then
    let st1 := set_scaler st (Some UnfittedScaler) in
    match lift (scaler_fit_transform X_train) with
    | Raise e => (st1, Raise e)
    | Ok (sc, X_train_scaled) =>
        let st2 := set_scaler st1 (Some (FittedScaler sc)) in
        match lift (scaler_transform sc X_test) with
        | Raise e => (st2, Raise e)
        | Ok X_test_scaled =>
            let st3 := set_model st2 (Some (UnfittedModel kind)) in
            match lift (fit kind X_train_scaled y_train) with
            | Raise e => (st3, Raise e)
            | Ok c => (set_model st3 (Some (FittedModel c)), Ok X_test_scaled)
            end
        end
    end
  else (st, Ok X_test).

(** [train]: the new state of [self] and the report, or what was raised. *)
Definition train (st : StockSenseModel) (data : DataFrame)
  (target_column kind : string) : StockSenseModel * result TrainingReport :=
  match engineer_features data with
  | Raise e => (st, Raise e)
  | Ok data_engineered =>
  match prepare_features st data_engineered true with
  | (st1, Raise e) => (st1, Raise e)
  | (st1, Ok (X, _)) =>
  match getitem data_engineered target_column with
  | Raise e => (st1, Raise e)
  | Ok y =>
  match lift (train_test_split X y) with
  | Raise e => (st1, Raise e)
  | Ok (X_train, X_test0, y_train, y_test) =>
  match fit_model st1 kind X_train X_test0 y_train with
  | (st2, Raise e) => (st2, Raise e)
  | (st2, Ok X_test) =>
  match (y_pred <- model_predict (model st2) X_test ;;
         y_prob <- model_predict_proba (model st2) X_test ;;
         auc <- lift (roc_auc_score y_test y_prob) ;;
         _ <- lift (classification_report y_test y_pred) ;;
         Ok (mkReport auc (accuracy_of y_pred y_test) kind)) with
  | Raise e => (st2, Raise e)
  | Ok report => (set_is_trained st2 true, Ok report)
  end end end end end end.

(** [save_model]: the files after the call. *)
Definition save_model (st : StockSenseModel) (files : gmap string Artifact)
  (filepath now : string) : gmap string Artifact * result unit :=
  if negb (is_trained st) then
    (files, Raise (ValueError "Model must be trained before saving"))
  else
    (<[filepath := {| art_model := Some (model st);
                      art_scaler := Some (scaler st);
                      art_encoders := Some (encoders st);
                      art_feature_names := Some (feature_names st);
                      art_timestamp := Some now |}]> files, Ok tt).

(** [joblib.load]. *)
Definition joblib_load (files : gmap string Artifact) (filepath : string)
  : result Artifact :=
  match files !! filepath with
  | Some a => Ok a
  | None => Raise FileNotFoundError
  end.

(** [d[key]] on a loaded dict. *)
Definition dict_item {A} (key : string) (field : option A) : result A :=
  match field with
  | Some v => Ok v
  | None => Raise (KeyError key)
  end.

(** [load_model]: the fields are assigned one after the other. *)
Definition load_model (st : StockSenseModel) (files : gmap string Artifact)
  (filepath : string) : StockSenseModel * result unit :=
  match joblib_load files filepath with
  | Raise e => (st, Raise e)
  | Ok model_data =>
  match dict_item "model" (art_model model_data) with
  | Raise e => (st, Raise e)
  | Ok m =>
  let st1 := set_scaler (set_model st m) (default None (art_scaler model_data)) in
  match dict_item "encoders" (art_encoders model_data) with
  | Raise e => (st1, Raise e)
  | Ok e =>
  let st2 := set_encoders st1 e in
  match dict_item "feature_names" (art_feature_names model_data) with
  | Raise e => (st2, Raise e)
  | Ok f => (set_is_trained (set_feature_names st2 f) true, Ok tt)
  end end end end.

(** The encoders of [st] can be applied to the table: each is fitted and
    finds its column. *)
Definition encodable (st : StockSenseModel) (df : DataFrame) (todo : list string)
  : Prop :=
  forall col enc, In col todo -> encoders st !! col = Some enc ->
    is_Some (classes_ enc) /\ is_Some (cols df !! col).

(** A call of the public interface, and a session of calls on one model
    instance and one file system. *)
Inductive call : Type :=
| CallTrain (data : DataFrame) (target_column kind : string)
| CallLoad (filepath : string)
| CallSave (filepath now : string)
| CallPredict (data : DataFrame).

Definition completed {A} (r : result A) : bool :=
  match r with Ok _ => true | Raise _ => false end.

(** The state after a call, and whether the call was a [train] or a
    [load_model] that completed. *)
Definition exec (c : call) (w : StockSenseModel * gmap string Artifact)
  : StockSenseModel * gmap string Artifact * bool :=
  let '(st, files) := w in
  match c with
  | CallTrain data target kind =>
      let '(st1, r) := train st data target kind in (st1, files, completed r)
  | CallLoad filepath =>
      let '(st1, r) := load_model st files filepath in (st1, files, completed r)
  | CallSave filepath now =>
      let '(files1, _) := save_model st files filepath now in (st, files1, false)
  | CallPredict data => (st, files, false)
  end.

Fixpoint run (calls : list call) (w : StockSenseModel * gmap string Artifact)
  : StockSenseModel * gmap string Artifact * bool :=
  match calls with
  | [] => (w, false)
  | c :: rest =>
      let '(w1, ok) := exec c w in
      let '(w2, ok') := run rest w1 in
      (w2, ok || ok')
  end.

End WithSklearn.

End Model.
Export Model.

(** ** [StockSensePredictor] ([predictor.py]) *)

Module Predictor.

Section WithSklearn.
Context `{SK : Sklearn}.

Record StockSensePredictor : Type := mkPredictor {
  model_path : string;
  model_data : Artifact
}.

(** [__init__], which calls [load_model]: a missing file is re-raised. *)
Definition new_predictor (files : gmap string Artifact) (path : string)
  : result StockSensePredictor :=
  a <- joblib_load files path ;; Ok (mkPredictor path a).

(** Lines 63-72: one row per product of [sales_history]. *)
Definition aggregate_sales (sales_history : DataFrame) : result (gmap string SalesAgg) :=
  ids <- getitem sales_history "product_id" ;;
  dcol <- getitem sales_history "daily_demand" ;;
  scol <- getitem sales_history "stockout" ;;
  demand <- nums dcol ;;
  stockout <- nums scol ;;
  Ok (map_zip_with (fun d s => mkAgg (nanmean d) (std d) (nanmax d) (nansum s))
        (group_values ids demand) (group_values ids stockout)).

Definition default_if_absent (df : DataFrame) (c : string) (v : cell) : DataFrame :=
  if has_col df c then df else set_scalar df c v.

(** [prepare_prediction_data], lines 61-74: the join with the sales
    aggregates when a sales history is given. *)
Definition join_sales (df : DataFrame) (sales_history : option DataFrame)
  : result DataFrame :=
  match sales_history with
  | Some sh => sales_agg <- aggregate_sales sh ;; merge_left df sales_agg
  | None => Ok df
  end.

(** [prepare_prediction_data], lines 76-108: defaults for absent columns
    and the derived columns. *)
Definition fill_and_derive (df : DataFrame) : result DataFrame :=
  let df := default_if_absent df "avg_daily_demand" (CNum (Fin 10)) in
  let df := default_if_absent df "demand_std" (CNum (Fin 2)) in
  df <- (if has_col df "max_daily_demand" then Ok df
         else a <- getitem df "avg_daily_demand" ;;
              Ok (setitem df "max_daily_demand" (series_mul2 a))) ;;
  let df := default_if_absent df "total_stockouts" (CNum (Fin 0)) in
  ds <- getitem df "demand_std" ;;
  a <- getitem df "avg_daily_demand" ;;
  dv <- series_div ds a ;;
  let df := setitem df "demand_variability" dv in
  cs <- getitem df "current_stock" ;;
  a <- getitem df "avg_daily_demand" ;;
  scd <- series_div cs a ;;
  let df := setitem df "stock_coverage_days" scd in
  ts <- getitem df "total_stockouts" ;;
  sr <- series_div_scalar ts (Fin 365) ;;
  let df := setitem df "stockout_rate" sr in
  let df := default_if_absent df "price" (CNum (Fin 50)) in
  let df := default_if_absent df "category" (CStr "General") in
  let df := default_if_absent df "subcategory" (CStr "General") in
  let df := default_if_absent df "seasonal_factor" (CNum (Fin 1)) in
  let df := default_if_absent df "weekend_sales_ratio" (CNum (Fin (1 # 2))) in
  let df := default_if_absent df "holiday_sales_ratio" (CNum (Fin (1 # 2))) in
  Ok df.

(** [prepare_prediction_data]. *)
Definition prepare_prediction_data (inventory_data : DataFrame)
  (sales_history : option DataFrame) : result DataFrame :=
  df <- join_sales inventory_data sales_history ;;
  fill_and_derive df.

(** Lines 132-137 and 187-192: the temporary model built from the loaded
    artifact. *)
Definition temp_model (p : StockSensePredictor) : result StockSenseModel :=
  m <- dict_item "model" (art_model (model_data p)) ;;
  let s := default None (art_scaler (model_data p)) in
  e <- dict_item "encoders" (art_encoders (model_data p)) ;;
  f <- dict_item "feature_names" (art_feature_names (model_data p)) ;;
  Ok (mkModel m s e f true).

(** The body of the [try] of both prediction methods. *)
Definition model_path_predict (p : StockSensePredictor) (df_prepared : DataFrame)
  : result (list Z * list fnum) :=
  tm <- temp_model p ;; predict tm df_prepared.

(** Lines 199-208: the loop over [df_prepared.iterrows()]. *)
Fixpoint fallback_rows (df_prepared : DataFrame) (rows : list nat)
  : result (list Z * list fnum) :=
  match rows with
  | [] => Ok ([], [])
  | i :: rest =>
      sp <- fallback (row_get df_prepared i) ;;
      acc <- fallback_rows df_prepared rest ;;
      Ok (sp.2 :: acc.1, sp.1 :: acc.2)
  end.

Definition fallback_batch (df_prepared : DataFrame) : result (list Z * list fnum) :=
  fallback_rows df_prepared (seq 0 (nrows df_prepared)).

Definition risk_level_of (prediction : Z) : string :=
  if (prediction =? 1)%Z then "High" else "Low".

(** [predict_batch], lines 210-219: the result table, sorted.  [now] is
    [datetime.now().isoformat()]. *)
Definition assemble_results (inventory_data : DataFrame)
  (predictions : list Z) (probabilities : list fnum) (now : string)
  : result DataFrame :=
  let results := inventory_data in
  results <- setitem_list results "risk_score" (of_nums probabilities) ;;
  results <- setitem_list results "risk_prediction" (map num_of_Z predictions) ;;
  results <- setitem_list results "risk_level"
               (map (fun q => CStr (risk_level_of q)) predictions) ;;
  results <- setitem_list results "risk_category"
               (map (fun s => CStr (_categorize_risk s)) probabilities) ;;
  let results := set_scalar results "prediction_timestamp" (CStr now) in
  sort_values_desc results "risk_score".

(** [predict_batch]. *)
Definition predict_batch (p : StockSensePredictor) (inventory_data : DataFrame)
  (sales_history : option DataFrame) (now : string) : result DataFrame :=
  df_prepared <- prepare_prediction_data inventory_data sales_history ;;
  pp <- try_except (model_path_predict p df_prepared)
          (fun _ => fallback_batch df_prepared) ;;
  assemble_results inventory_data pp.1 pp.2 now.




Record RiskDistribution : Type := mkDistribution {
  high_risk_count : fnum;
  medium_risk_count : fnum;
  low_risk_count : fnum
}.

(** The builtin [sum]: from 0, left to right. *)
Definition py_sum (xs : list fnum) : fnum := fold_left fadd xs (Fin 0).

(** [series.between(lo, hi)], both ends included. *)
Definition between (lo hi : Q) (x : fnum) : bool :=
  fle (Fin lo) x && fle x (Fin hi).

(** The counts of [generate_dashboard_data] from the predictions table. *)
Definition risk_distribution_of (predictions : DataFrame) : result RiskDistribution :=
  let total_products := Fin (inject_Z (Z.of_nat (nrows predictions))) in
  rp <- getitem predictions "risk_prediction" ;;
  rps <- nums rp ;;
  let high := py_sum rps in
  rs <- getitem predictions "risk_score" ;;
  scores <- nums rs ;;
  let medium := flen (List.filter (between (3 # 10) (7 # 10)) scores) in
  let low := fsub (fsub total_products high) medium in
  Ok (mkDistribution high medium low).

(** [generate_dashboard_data], up to its [risk_distribution]. *)
Definition dashboard_risk_distribution (p : StockSensePredictor)
  (inventory_data : DataFrame) (now : string) : result RiskDistribution :=
  predictions <- predict_batch p inventory_data None now ;;
  risk_distribution_of predictions.

End WithSklearn.

End Predictor.
Export Predictor.

(** ** Well-formed inputs *)

Module Valid.

Definition numeric_if_present (df : DataFrame) (c : string) : Prop :=
  forall col, cols df !! c = Some col -> numeric col.

(** No cell of the column is the number zero. *)
Definition no_zero (col : list cell) : Prop :=
  forall x, In (CNum x) col -> is_zero x = false.

(** An inventory table of valid numeric rows: the stock level is there, the
    columns the service computes with hold numbers (NaN allowed), and no
    lead time is zero. *)
Record valid_inventory (inv : DataFrame) : Prop := {
  vi_wf : wf_frame inv;
  vi_stock : exists cs, cols inv !! "current_stock" = Some cs /\ numeric cs;
  vi_avg : numeric_if_present inv "avg_daily_demand";
  vi_std : numeric_if_present inv "demand_std";
  vi_stockouts : numeric_if_present inv "total_stockouts";
  vi_lead : forall col, cols inv !! "supplier_lead_time" = Some col ->
                        numeric col /\ no_zero col
}.

(** An inventory table of numeric rows, whatever the lead times. *)
Record numeric_inventory (inv : DataFrame) : Prop := {
  ni_wf : wf_frame inv;
  ni_stock : exists cs, cols inv !! "current_stock" = Some cs /\ numeric cs;
  ni_avg : numeric_if_present inv "avg_daily_demand";
  ni_std : numeric_if_present inv "demand_std";
  ni_stockouts : numeric_if_present inv "total_stockouts";
  ni_lead : numeric_if_present inv "supplier_lead_time"
}.

(** A sales history that can be aggregated and joined to the inventory. *)
Record valid_sales (inv sh : DataFrame) : Prop := {
  vs_inv_id : is_Some (cols inv !! "product_id");
  vs_id : is_Some (cols sh !! "product_id");
  vs_demand : exists d, cols sh !! "daily_demand" = Some d /\ numeric d;
  vs_stockout : exists s, cols sh !! "stockout" = Some s /\ numeric s
}.

Definition valid_batch (inv : DataFrame) (sales_history : option DataFrame) : Prop :=
  valid_inventory inv
  /\ match sales_history with
     | Some sh => valid_sales inv sh
     | None => True
     end.

(** The table [engineer_features] returns, from the columns it read. *)
Definition engineered (data : DataFrame) (price avg ts lt sf scd : list fnum)
  (dv : list cell) : DataFrame :=
  setitem (setitem (setitem (setitem (setitem
    (setitem_categorical (setitem_categorical (setitem data
    "demand_variability" (fillna (CNum (Fin 0)) dv))
    "price_category" price_labels
      (map (cut_value 0 20 100 500 "Low" "Medium" "High" "Premium") price))
    "demand_category" demand_labels
      (map (cut_value 0 10 50 100 "Low" "Medium" "High" "Very High") avg))
    "stockout_rate" (of_nums (map (fun x => fdiv x (Fin 365)) ts)))
    "is_fast_moving" (map (fun x => of_bool (fgt x (median avg))) avg))
    "lead_time_risk" (map (fun x => of_bool (fgt x (Fin 7))) lt))
    "is_seasonal" (map (fun x => of_bool (fgt x (Fin (3 # 2)))) sf))
    "stock_health_score" (of_nums (zip_with fdiv scd lt)).

(** The cell of column [c] at row [i]. *)
Definition cell_of (df : DataFrame) (c : string) (i : nat) : option cell :=
  match cols df !! c with
  | Some col => col !! i
  | None => None
  end.

(** The columns the join with the sales aggregates adds. *)
Definition aggregate_names : list string :=
  ["avg_daily_demand"; "demand_std"; "max_daily_demand"; "total_stockouts"].

(** The first required raw column the table lacks, if any. *)
Definition first_absent (data : DataFrame) : option string :=
  List.find (fun c => negb (has_col data c)) required_raw_columns.

(** The required raw columns the table has hold numbers. *)
Definition numeric_raw_columns (data : DataFrame) : Prop :=
  forall c, In c required_raw_columns -> numeric_if_present data c.

(** What the rest of the service needs to know of a table on its way
    through [prepare_prediction_data]: the row count, the stock and lead
    time columns of the inventory, and numbers in the columns used as
    divisors and dividends. *)
Definition tracks (n : nat) (inv df : DataFrame) : Prop :=
  nrows df = n
  /\ cols df !! "current_stock" = cols inv !! "current_stock"
  /\ cols df !! "supplier_lead_time" = cols inv !! "supplier_lead_time"
  /\ (forall c, c = "avg_daily_demand"%string \/ c = "demand_std"%string
                \/ c = "total_stockouts"%string ->
      forall col, cols df !! c = Some col -> numeric col /\ length col = n).

(** The rows of a prepared table the heuristic can work on. *)
Definition heuristic_ready (df : DataFrame) : Prop :=
  (exists cs, cols df !! "current_stock" = Some (of_nums cs))
  /\ (exists avg, cols df !! "avg_daily_demand" = Some (of_nums avg))
  /\ (forall col, cols df !! "supplier_lead_time" = Some col ->
                  numeric col /\ no_zero col).

(** Larger scores first, missing ones last. *)
Definition descending (scores : list fnum) : Prop :=
  StronglySorted (fun a b => before a b = true) scores.

(** A result that is not the error [predict] raises on an untrained
    model. *)
Definition passes_guard {A} (r : result A) : Prop :=
  r <> Raise (ValueError not_trained_msg).

(** The scores are the given rationals, in this order. *)
Definition has_values (scores : list fnum) (qs : list Q) : Prop :=
  Forall2 (fun s q => exists r, s = Fin r /\ r == q) scores qs.

(** A score between 0 and 1. *)
Definition unit_score (s : fnum) : Prop :=
  exists q, s = Fin q /\ 0 <= q /\ q <= 1.

End Valid.
Export Valid.

(** ** Sample inputs *)

Module Samples.

Definition num (q : Q) : cell := CNum (Fin q).

Definition table (n : nat) (columns : list (string * list cell)) : DataFrame :=
  mkFrame n (list_to_map columns) ∅.

(** A backend with no library behind it: every call fails. *)
Definition offline : Sklearn := {|
  classifier := unit;
  fitted_scaler := unit;
  std := fun _ => NaN;
  fillna_validates := true;
  train_test_split := fun _ _ => inl "unavailable";
  fit := fun _ _ _ => inl "unavailable";
  clf_predict := fun _ _ => inl "unavailable";
  clf_predict_proba := fun _ _ => inl "unavailable";
  scaler_fit_transform := fun _ => inl "unavailable";
  scaler_transform := fun _ _ => inl "unavailable";
  roc_auc_score := fun _ _ => inl "unavailable";
  classification_report := fun _ _ => inl "unavailable"
|}.

Definition rows_of (X : matrix) : nat :=
  match X with
  | (_, col) :: _ => length col
  | [] => 0%nat
  end.

(** A backend whose classifiers give every row the same label and the same
    probability. *)
Definition constant (label : Z) (probability : fnum) : Sklearn := {|
  classifier := unit;
  fitted_scaler := unit;
  std := fun _ => NaN;
  fillna_validates := false;
  train_test_split := fun X y => inr (X, X, y, y);
  fit := fun _ _ _ => inr tt;
  clf_predict := fun _ X => inr (replicate (rows_of X) label);
  clf_predict_proba := fun _ X => inr (replicate (rows_of X) probability);
  scaler_fit_transform := fun X => inr (tt, X);
  scaler_transform := fun _ X => inr X;
  roc_auc_score := fun _ _ => inr (Fin 1);
  classification_report := fun _ _ => inr tt
|}.

(** A table whose raw columns are there and hold only missing values. *)
Definition blank_table : DataFrame :=
  table 2 [("demand_variability", [CNum NaN; CNum NaN]);
           ("price", [CNum NaN; CNum NaN]);
           ("avg_daily_demand", [CNum NaN; CNum NaN]);
           ("total_stockouts", [CNum NaN; CNum NaN]);
           ("supplier_lead_time", [CNum NaN; CNum NaN]);
           ("seasonal_factor", [CNum NaN; CNum NaN]);
           ("stock_coverage_days", [CNum NaN; CNum NaN])].

(** A table of no rows. *)
Definition no_rows : DataFrame :=
  table 0 [("demand_variability", []); ("price", []);
           ("avg_daily_demand", []); ("total_stockouts", []);
           ("supplier_lead_time", []); ("seasonal_factor", []);
           ("stock_coverage_days", [])].

(** The blank table without its price column. *)
Definition without_price : DataFrame :=
  mkFrame 2 (delete "price" (cols blank_table)) ∅.

(** A loaded dict without the keys of a model artifact. *)
Definition empty_artifact `{SK : Sklearn} : Artifact :=
  mkArtifact None None None None None.

Definition broken_predictor `{SK : Sklearn} : StockSensePredictor :=
  mkPredictor "../models/stockout_model.pkl" empty_artifact.


(** Three products whose heuristic scores are 0.2, 0.9 and 0.5. *)
Definition three_products : DataFrame :=
  table 3 [("product_id", [CStr "A"; CStr "B"; CStr "C"]);
           ("current_stock", [num 80; num 10; num 50]);
           ("minimum_stock_level", [num 20; num 20; num 20]);
           ("supplier_lead_time", [num 5; num 5; num 5])].

(** One product whose heuristic score is 0.6. *)
Definition one_product : DataFrame :=
  table 1 [("product_id", [CStr "P1"]);
           ("current_stock", [num 40]);
           ("avg_daily_demand", [num 10]);
           ("minimum_stock_level", [num 20]);
           ("supplier_lead_time", [num 5])].

(** One product that sells half a unit a day. *)
Definition slow_mover : DataFrame :=
  table 1 [("product_id", [CStr "S1"]);
           ("current_stock", [num 10]);
           ("avg_daily_demand", [num (1 # 2)]);
           ("minimum_stock_level", [num 5]);
           ("supplier_lead_time", [num 5])].

(** One product nobody buys. *)
Definition no_demand : DataFrame :=
  table 1 [("product_id", [CStr "N1"]);
           ("current_stock", [num 10]);
           ("avg_daily_demand", [num 0]);
           ("minimum_stock_level", [num 5]);
           ("supplier_lead_time", [num 5])].

(** One product whose supplier delivers within the day. *)
Definition zero_lead_product : DataFrame :=
  table 1 [("product_id", [CStr "Z"]);
           ("current_stock", [num 10]);
           ("supplier_lead_time", [num 0])].

(** An inventory of two products and a sales history that knows only the
    first. *)
Definition two_products : DataFrame :=
  table 2 [("product_id", [CStr "P1"; CStr "P2"]);
           ("current_stock", [num 5; num 7]);
           ("minimum_stock_level", [num 20; num 20]);
           ("supplier_lead_time", [num 7; num 7])].

Definition sales_of_first : DataFrame :=
  table 2 [("product_id", [CStr "P1"; CStr "P1"]);
           ("daily_demand", [num 4; num 6]);
           ("stockout", [num 0; num 1])].

(** The same inventory, carrying a demand column of its own. *)
Definition two_products_with_demand : DataFrame :=
  table 2 [("product_id", [CStr "P1"; CStr "P2"]);
           ("current_stock", [num 5; num 7]);
           ("avg_daily_demand", [num 3; num 3]);
           ("minimum_stock_level", [num 20; num 20]);
           ("supplier_lead_time", [num 7; num 7])].

(** A product of a category the encoders below have not seen. *)
Definition new_product : DataFrame :=
  table 1 [("product_id", [CStr "NEW1"]);
           ("category", [CStr "Toys & Games"]);
           ("subcategory", [CStr "Shoes"]);
           ("price", [num 30]);
           ("supplier_lead_time", [num 7]);
           ("minimum_stock_level", [num 20]);
           ("seasonal_factor", [num 1]);
           ("avg_daily_demand", [num 5]);
           ("demand_std", [num 1]);
           ("max_daily_demand", [num 9]);
           ("total_stockouts", [num 2]);
           ("current_stock", [num 15]);
           ("demand_variability", [num (1 # 5)]);
           ("stock_coverage_days", [num 3])].

(** The same product, given away: its price is in no price bucket. *)
Definition unpriced_product : DataFrame :=
  table 1 [("product_id", [CStr "NEW1"]);
           ("category", [CStr "Toys & Games"]);
           ("subcategory", [CStr "Shoes"]);
           ("price", [num 0]);
           ("supplier_lead_time", [num 7]);
           ("minimum_stock_level", [num 20]);
           ("seasonal_factor", [num 1]);
           ("avg_daily_demand", [num 5]);
           ("demand_std", [num 1]);
           ("max_daily_demand", [num 9]);
           ("total_stockouts", [num 2]);
           ("current_stock", [num 15]);
           ("demand_variability", [num (1 # 5)]);
           ("stock_coverage_days", [num 3])].

Definition sample_encoders : gmap string LabelEncoder :=
  {[ "category" := mkEncoder (Some ["Clothing"; "Electronics"]);
     "subcategory" := mkEncoder (Some ["Laptops"; "Shoes"]);
     "price_category" := mkEncoder (Some ["High"; "Low"; "Medium"; "Premium"]);
     "demand_category" := mkEncoder (Some ["Low"; "Medium"]) ]}.

(** A model as [load_model] leaves it, over the constant backend. *)
Definition loaded_model : StockSenseModel (SK := constant 1 (Fin (4 # 5))) :=
  mkModel (SK := constant 1 (Fin (4 # 5)))
    (Some (FittedModel (SK := constant 1 (Fin (4 # 5))) tt)) None
    sample_encoders feature_cols true.

(** Two rows of training data. *)
Definition training_data : DataFrame :=
  table 2 [("product_id", [CStr "PROD0001"; CStr "PROD0002"]);
           ("category", [CStr "Electronics"; CStr "Clothing"]);
           ("subcategory", [CStr "Laptops"; CStr "Shoes"]);
           ("price", [num 999; num 25]);
           ("supplier_lead_time", [num 7; num 3]);
           ("minimum_stock_level", [num 20; num 40]);
           ("seasonal_factor", [num 1; num (9 # 5)]);
           ("avg_daily_demand", [num 5; num 60]);
           ("demand_std", [num 1; num 12]);
           ("max_daily_demand", [num 9; num 95]);
           ("total_stockouts", [num 2; num 0]);
           ("weekend_sales_ratio", [num (2 # 7); num (2 # 7)]);
           ("holiday_sales_ratio", [num (1 # 6); num (1 # 6)]);
           ("current_stock", [num 15; num 400]);
           ("days_since_restock", [num 3; num 12]);
           ("demand_variability", [num (1 # 5); num (1 # 5)]);
           ("stock_coverage_days", [num 3; num (20 # 3)]);
           ("is_high_risk", [num 1; num 0])].

(** A model artifact as [save_model] writes it. *)
Definition sample_artifact `{SK : Sklearn} : Artifact :=
  mkArtifact (Some None) (Some None) (Some sample_encoders)
    (Some feature_cols) (Some "2024-01-01T00:00:00").

End Samples.
Export Samples.


(** ** More of the model's state *)

Module Fitted.

Section WithSklearn.
Context `{SK : Sklearn}.


End WithSklearn.

End Fitted.
Export Fitted.


(** * Facts *)

(** ** Comparisons of rationals *)

Lemma Qlt_bool_iff (x y : Q) : Qlt_bool x y = true <-> x < y.
Proof.
  unfold Qlt_bool. rewrite negb_true_iff.
  destruct (Qle_bool y x) eqn:E.
  - apply Qle_bool_iff in E. split; [discriminate | intros H; lra].
  - split; [intros _ | reflexivity].
    destruct (Qlt_le_dec x y) as [H | H]; [exact H |].
    apply Qle_bool_iff in H. congruence.
Qed.

Lemma Qlt_bool_false (x y : Q) : Qlt_bool x y = false <-> y <= x.
Proof.
  unfold Qlt_bool. rewrite negb_false_iff. apply Qle_bool_iff.
Qed.

Lemma Qlt_bool_spec (x y : Q) : reflect (x < y) (Qlt_bool x y).
Proof.
  destruct (Qlt_bool x y) eqn:E; constructor.
  - by apply Qlt_bool_iff.
  - apply Qlt_bool_false in E. lra.
Qed.

Lemma Qle_bool_spec (x y : Q) : reflect (x <= y) (Qle_bool x y).
Proof.
  destruct (Qle_bool x y) eqn:E; constructor.
  - by apply Qle_bool_iff.
  - intros H. apply Qle_bool_iff in H. congruence.
Qed.

Lemma Qeq_bool_spec (x y : Q) : reflect (x == y) (Qeq_bool x y).
Proof.
  destruct (Qeq_bool x y) eqn:E; constructor.
  - by apply Qeq_bool_iff.
  - intros H. apply Qeq_bool_iff in H. congruence.
Qed.

(** ** The risk categories *)

Lemma categorize_risk_bounds (q : Q) :
  (_categorize_risk (Fin q) = "Low Risk"%string <-> q < 3 # 10)
  /\ (_categorize_risk (Fin q) = "Medium Risk"%string <-> 3 # 10 <= q /\ q < 7 # 10)
  /\ (_categorize_risk (Fin q) = "High Risk"%string <-> 7 # 10 <= q).
Proof.
  unfold _categorize_risk, flt.
  destruct (Qlt_bool_spec q (3 # 10)) as [H1 | H1];
    destruct (Qlt_bool_spec q (7 # 10)) as [H2 | H2];
    repeat split; intros; try discriminate; try lra; auto.
Qed.

(** C3.  For every real-valued risk score, [_categorize_risk] returns one of
    the three labels: 'Low Risk' exactly when the score is below 0.3,
    'Medium Risk' exactly when it is at least 0.3 and below 0.7, and
    'High Risk' exactly when it is at least 0.7. *)
Theorem categorize_risk_thresholds (q : Q) :
  (_categorize_risk (Fin q) = "Low Risk"%string
   \/ _categorize_risk (Fin q) = "Medium Risk"%string
   \/ _categorize_risk (Fin q) = "High Risk"%string)
  /\ (_categorize_risk (Fin q) = "Low Risk"%string <-> q < 3 # 10)
  /\ (_categorize_risk (Fin q) = "Medium Risk"%string <-> 3 # 10 <= q /\ q < 7 # 10)
  /\ (_categorize_risk (Fin q) = "High Risk"%string <-> 7 # 10 <= q).
Proof.
  split; [| apply categorize_risk_bounds].
  unfold _categorize_risk.
  destruct (flt (Fin q) (Fin (3 # 10))); [auto |].
  destruct (flt (Fin q) (Fin (7 # 10))); auto.
Qed.


(** A score that is no real number (NaN, an infinity above) is put in the
    last bucket. *)
Lemma categorize_risk_nan : _categorize_risk NaN = "High Risk"%string.
Proof. reflexivity. Qed.

(** ** The heuristic *)

(** The clamp of the heuristic always gives a number between 0 and 1. *)
Lemma clamp_unit (x : fnum) :
  exists r, num_max (Fin 0) (num_min (Fin 1) x) = Fin r /\ 0 <= r /\ r <= 1.
Proof.
  unfold num_max, num_min, fgt.
  destruct x as [q | | |]; cbn.
  - destruct (Qlt_bool_spec q 1); cbn.
    + destruct (Qlt_bool_spec 0 q); eexists; split; try reflexivity; lra.
    + exists 1. split; [reflexivity | lra].
  - exists 1. split; [reflexivity | lra].
  - exists 0. split; [reflexivity | lra].
  - exists 1. split; [reflexivity | lra].
Qed.





(** ** Tables *)

Lemma nums_of_nums (xs : list fnum) : nums (of_nums xs) = Ok xs.
Proof.
  induction xs as [| x xs IH]; cbn; [reflexivity |].
  unfold of_nums in IH. rewrite IH. reflexivity.
Qed.

Lemma numeric_of_nums (xs : list fnum) : numeric (of_nums xs).
Proof. unfold numeric. induction xs; cbn; auto. Qed.

Lemma numeric_inv (col : list cell) :
  numeric col -> exists xs, col = of_nums xs.
Proof.
  unfold numeric. induction col as [| c col IH]; cbn; intros H.
  - exists []. reflexivity.
  - destruct c as [x | s]; [| discriminate].
    destruct (IH H) as [xs ->]. exists (x :: xs). reflexivity.
Qed.

Lemma length_of_nums (xs : list fnum) : length (of_nums xs) = length xs.
Proof. unfold of_nums. apply length_map. Qed.

Lemma nth_of_nums (xs : list fnum) (i : nat) :
  nth i (of_nums xs) (CNum NaN) = CNum (nth i xs NaN).
Proof. unfold of_nums. apply (map_nth CNum). Qed.

Lemma nums_inv (col : list cell) (xs : list fnum) :
  nums col = Ok xs -> col = of_nums xs.
Proof.
  revert xs. induction col as [| c col IH]; cbn; intros xs H.
  - injection H as <-. reflexivity.
  - destruct c as [x | s]; [| discriminate].
    destruct (nums col) as [ys |]; cbn in H; [| discriminate].
    injection H as <-. cbn. f_equal. apply IH. reflexivity.
Qed.

Lemma numeric_replicate (n : nat) (x : fnum) : numeric (replicate n (CNum x)).
Proof. unfold numeric. induction n; cbn; auto. Qed.

Lemma series_div_of_nums (xs ys : list fnum) :
  series_div (of_nums xs) (of_nums ys) = Ok (of_nums (zip_with fdiv xs ys)).
Proof. unfold series_div. rewrite !nums_of_nums. reflexivity. Qed.

Lemma series_div_scalar_of_nums (xs : list fnum) (k : fnum) :
  series_div_scalar (of_nums xs) k = Ok (of_nums (map (fun x => fdiv x k) xs)).
Proof. unfold series_div_scalar. rewrite nums_of_nums. reflexivity. Qed.

Lemma getitem_Some (df : DataFrame) (c : string) (col : list cell) :
  cols df !! c = Some col -> getitem df c = Ok col.
Proof. unfold getitem. intros ->. reflexivity. Qed.

Lemma getitem_None (df : DataFrame) (c : string) :
  cols df !! c = None -> getitem df c = Raise (KeyError c).
Proof. unfold getitem. intros ->. reflexivity. Qed.

Lemma cols_setitem_eq (df : DataFrame) (c : string) (col : list cell) :
  cols (setitem df c col) !! c = Some col.
Proof. cbn. apply lookup_insert_eq. Qed.

Lemma cols_setitem_ne (df : DataFrame) (c c' : string) (col : list cell) :
  c <> c' -> cols (setitem df c col) !! c' = cols df !! c'.
Proof. intros H. cbn. by apply lookup_insert_ne. Qed.

Lemma nrows_setitem (df : DataFrame) (c : string) (col : list cell) :
  nrows (setitem df c col) = nrows df.
Proof. reflexivity. Qed.

Lemma cols_setitem_categorical_eq (df : DataFrame) (c : string)
  (categories col : list cell) :
  cols (setitem_categorical df c categories col) !! c = Some col.
Proof. cbn. apply lookup_insert_eq. Qed.

Lemma cols_setitem_categorical_ne (df : DataFrame) (c c' : string)
  (categories col : list cell) :
  c <> c' -> cols (setitem_categorical df c categories col) !! c' = cols df !! c'.
Proof. intros H. cbn. by apply lookup_insert_ne. Qed.

Lemma nrows_setitem_categorical (df : DataFrame) (c : string)
  (categories col : list cell) :
  nrows (setitem_categorical df c categories col) = nrows df.
Proof. reflexivity. Qed.

Lemma cols_default_eq (df : DataFrame) (c : string) (v : cell) :
  cols (default_if_absent df c v) !! c
  = Some (default (replicate (nrows df) v) (cols df !! c)).
Proof.
  unfold default_if_absent, has_col.
  destruct (cols df !! c) eqn:E; cbn; [exact E | apply lookup_insert_eq].
Qed.

Lemma cols_default_ne (df : DataFrame) (c c' : string) (v : cell) :
  c <> c' -> cols (default_if_absent df c v) !! c' = cols df !! c'.
Proof.
  intros H. unfold default_if_absent, has_col.
  destruct (cols df !! c); cbn; [reflexivity | by apply lookup_insert_ne].
Qed.

Lemma nrows_default (df : DataFrame) (c : string) (v : cell) :
  nrows (default_if_absent df c v) = nrows df.
Proof. unfold default_if_absent. destruct (has_col df c); reflexivity. Qed.

(** Rewrites the lookups of columns and row counts through [setitem] and
    [default_if_absent]. *)
Ltac frame_lookup :=
  repeat first
    [ rewrite cols_setitem_ne by done
    | rewrite cols_setitem_categorical_ne by done
    | rewrite cols_default_ne by done
    | rewrite cols_setitem_eq
    | rewrite cols_setitem_categorical_eq
    | rewrite nrows_setitem
    | rewrite nrows_setitem_categorical
    | rewrite nrows_default ].

Lemma string_length_app (s t : string) :
  String.length (s +:+ t) = (String.length s + String.length t)%nat.
Proof. induction s as [| a s IH]; [reflexivity | simpl; f_equal; exact IH]. Qed.

Lemma suffix_fresh (s t : string) : t <> ""%string -> (s +:+ t)%string <> s.
Proof.
  intros Ht H. apply (f_equal String.length) in H.
  rewrite string_length_app in H. destruct t; [done | cbn in H; lia].
Qed.

Lemma cols_add_merged_ne (left df : DataFrame) (name c : string) (col : list cell) :
  c <> name -> c <> (name +:+ "_x")%string -> c <> (name +:+ "_y")%string ->
  cols (add_merged left name col df) !! c = cols df !! c.
Proof.
  intros H1 H2 H3. unfold add_merged.
  destruct (cols left !! name); cbn.
  - rewrite !lookup_insert_ne by done. by apply lookup_delete_ne.
  - by apply lookup_insert_ne.
Qed.

Lemma cols_add_merged_eq (left df : DataFrame) (name : string) (col : list cell) :
  cols (add_merged left name col df) !! name
  = match cols left !! name with Some _ => None | None => Some col end.
Proof.
  unfold add_merged. destruct (cols left !! name); cbn.
  - rewrite !lookup_insert_ne by (by apply suffix_fresh).
    apply lookup_delete_eq.
  - apply lookup_insert_eq.
Qed.

Lemma nrows_add_merged (left df : DataFrame) (name : string) (col : list cell) :
  nrows (add_merged left name col df) = nrows df.
Proof. unfold add_merged. destruct (cols left !! name); reflexivity. Qed.


(** ** [prepare_prediction_data] *)

Section Prepare.
Context `{SK : Sklearn}.

Lemma tracks_refl (inv : DataFrame) :
  wf_frame inv ->
  numeric_if_present inv "avg_daily_demand" ->
  numeric_if_present inv "demand_std" ->
  numeric_if_present inv "total_stockouts" ->
  tracks (nrows inv) inv inv.
Proof.
  intros Hwf Ha Hs Ht. repeat split; auto.
  - destruct H as [-> | [-> | ->]]; eauto.
  - eapply Hwf; eauto.
Qed.

Lemma numeric_agg_column (f : SalesAgg -> fnum) (found : list (option SalesAgg)) :
  numeric (map (fun o : option SalesAgg => CNum (from_option f NaN o)) found).
Proof. unfold numeric. induction found; cbn; auto. Qed.

Lemma tracks_add_merged (n : nat) (inv left df : DataFrame) (name : string)
  (col : list cell) :
  (name = "avg_daily_demand" \/ name = "demand_std"
   \/ name = "max_daily_demand" \/ name = "total_stockouts")%string ->
  numeric col -> length col = n ->
  tracks n inv df -> tracks n inv (add_merged left name col df).
Proof.
  intros Hname Hnum Hlen (Hn & Hcs & Hlt & Hcols).
  split; [by rewrite nrows_add_merged |].
  split; [| split].
  - rewrite cols_add_merged_ne; [exact Hcs | ..];
      destruct Hname as [-> | [-> | [-> | ->]]]; done.
  - rewrite cols_add_merged_ne; [exact Hlt | ..];
      destruct Hname as [-> | [-> | [-> | ->]]]; done.
  - intros c Hc col' Hcol'.
    destruct (decide (c = name)) as [-> | Hne].
    + rewrite cols_add_merged_eq in Hcol'.
      destruct (cols left !! name); [discriminate |].
      injection Hcol' as <-. auto.
    + rewrite cols_add_merged_ne in Hcol'; [by eapply Hcols | done | ..];
        destruct Hname as [-> | [-> | [-> | ->]]];
        destruct Hc as [-> | [-> | ->]]; done.
Qed.

Lemma nums_numeric (col : list cell) :
  numeric col -> exists xs, nums col = Ok xs.
Proof.
  intros H. destruct (numeric_inv _ H) as [xs ->].
  exists xs. apply nums_of_nums.
Qed.

(** The join keeps the rows of the inventory. *)
Lemma join_sales_tracks (inv : DataFrame) (sales_history : option DataFrame) :
  wf_frame inv ->
  numeric_if_present inv "avg_daily_demand" ->
  numeric_if_present inv "demand_std" ->
  numeric_if_present inv "total_stockouts" ->
  match sales_history with
  | Some sh => valid_sales inv sh
  | None => True
  end ->
  exists df, join_sales inv sales_history = Ok df /\ tracks (nrows inv) inv df.
Proof.
  intros Hwf Hna Hns Hnt Hs. destruct sales_history as [sh |]; cbn.
  - destruct Hs as [[ids Hids] [sids Hsids] (d & Hd & Hdn) (s & Hs & Hsn)].
    unfold aggregate_sales.
    rewrite (getitem_Some _ _ _ Hsids), (getitem_Some _ _ _ Hd),
      (getitem_Some _ _ _ Hs). cbn.
    destruct (nums_numeric _ Hdn) as [dn ->].
    destruct (nums_numeric _ Hsn) as [sn ->]. cbn.
    unfold merge_left. rewrite (getitem_Some _ _ _ Hids). cbn.
    eexists. split; [reflexivity |].
    assert (Hlen : length ids = nrows inv) by (eapply Hwf; eauto).
    repeat apply tracks_add_merged; auto using numeric_agg_column, tracks_refl;
      by rewrite !length_map.
  - exists inv. split; [reflexivity | by apply tracks_refl].
Qed.

Lemma numeric_default (n : nat) (x : fnum) (o : option (list cell)) :
  (forall col, o = Some col -> numeric col /\ length col = n) ->
  exists xs, default (replicate n (CNum x)) o = of_nums xs /\ length xs = n.
Proof.
  intros H. destruct o as [col |]; cbn.
  - destruct (H col eq_refl) as [Hn Hl].
    destruct (numeric_inv _ Hn) as [xs ->]. exists xs.
    split; [reflexivity | by rewrite <- Hl, length_of_nums].
  - exists (replicate n x). split.
    + unfold of_nums. symmetry. apply (fmap_replicate CNum).
    + apply length_replicate.
Qed.

(** On a tracked table the defaults and derived columns never raise, and
    the coverage column is the plain quotient of stock by demand. *)
Lemma fill_and_derive_ok (n : nat) (inv df : DataFrame) (csn : list fnum) :
  tracks n inv df ->
  cols inv !! "current_stock" = Some (of_nums csn) ->
  exists dfp avg sd ts,
    fill_and_derive df = Ok dfp
    /\ nrows dfp = n
    /\ cols dfp !! "current_stock" = Some (of_nums csn)
    /\ cols dfp !! "supplier_lead_time" = cols inv !! "supplier_lead_time"
    /\ cols dfp !! "avg_daily_demand" = Some (of_nums avg)
    /\ length avg = n
    /\ cols dfp !! "stock_coverage_days" = Some (of_nums (zip_with fdiv csn avg))
    /\ default (replicate n (CNum (Fin 10))) (cols df !! "avg_daily_demand")
       = of_nums avg
    /\ default (replicate n (CNum (Fin 2))) (cols df !! "demand_std")
       = of_nums sd
    /\ default (replicate n (CNum (Fin 0))) (cols df !! "total_stockouts")
       = of_nums ts
    /\ cols dfp !! "demand_std" = Some (of_nums sd)
    /\ cols dfp !! "total_stockouts" = Some (of_nums ts)
    /\ cols dfp !! "demand_variability" = Some (of_nums (zip_with fdiv sd avg))
    /\ (forall col, cols df !! "max_daily_demand" = Some col ->
                    cols dfp !! "max_daily_demand" = Some col).
Proof.
  intros (Hn & Hcs & Hlt & Hcols) Hstock.
  destruct (numeric_default n (Fin 10) (cols df !! "avg_daily_demand"))
    as (avg & Havg & Hlavg); [by apply Hcols; auto |].
  destruct (numeric_default n (Fin 2) (cols df !! "demand_std"))
    as (sd & Hsd & Hlsd); [by apply Hcols; auto |].
  destruct (numeric_default n (Fin 0) (cols df !! "total_stockouts"))
    as (ts & Hts & Hlts); [by apply Hcols; auto |].
  exists (default_if_absent (default_if_absent (default_if_absent
    (default_if_absent (default_if_absent (default_if_absent
      (setitem (setitem (setitem
        (default_if_absent
          (let df2 := default_if_absent
                        (default_if_absent df "avg_daily_demand" (CNum (Fin 10)))
                        "demand_std" (CNum (Fin 2)) in
           if has_col df2 "max_daily_demand" then df2
           else setitem df2 "max_daily_demand" (series_mul2 (of_nums avg)))
          "total_stockouts" (CNum (Fin 0)))
        "demand_variability" (of_nums (zip_with fdiv sd avg)))
        "stock_coverage_days" (of_nums (zip_with fdiv csn avg)))
        "stockout_rate" (of_nums (map (fun x => fdiv x (Fin 365)) ts)))
      "price" (CNum (Fin 50))) "category" (CStr "General"))
      "subcategory" (CStr "General")) "seasonal_factor" (CNum (Fin 1)))
      "weekend_sales_ratio" (CNum (Fin (1 # 2))))
      "holiday_sales_ratio" (CNum (Fin (1 # 2)))), avg, sd, ts.
  unfold fill_and_derive.
  set (df1 := default_if_absent df "avg_daily_demand" (CNum (Fin 10))).
  set (df2 := default_if_absent df1 "demand_std" (CNum (Fin 2))).
  assert (Havg2 : cols df2 !! "avg_daily_demand" = Some (of_nums avg)).
  { subst df2 df1. frame_lookup. rewrite cols_default_eq, Hn. by f_equal. }
  assert (Hsd2 : cols df2 !! "demand_std" = Some (of_nums sd)).
  { subst df2 df1. rewrite cols_default_eq. frame_lookup. rewrite Hn. by f_equal. }
  assert (Hts2 : cols df2 !! "total_stockouts" = cols df !! "total_stockouts").
  { subst df2 df1. by frame_lookup. }
  assert (Hcs2 : cols df2 !! "current_stock" = Some (of_nums csn)).
  { subst df2 df1. frame_lookup. by rewrite Hcs. }
  assert (Hlt2 : cols df2 !! "supplier_lead_time" = cols inv !! "supplier_lead_time").
  { subst df2 df1. by frame_lookup. }
  assert (Hn2 : nrows df2 = n) by (subst df2 df1; by frame_lookup).
  assert (Hmax2 : cols df2 !! "max_daily_demand" = cols df !! "max_daily_demand").
  { subst df2 df1. by frame_lookup. }
  clearbody df2. clear df1.
  set (df3 := if has_col df2 "max_daily_demand" then df2
              else setitem df2 "max_daily_demand" (series_mul2 (of_nums avg))).
  replace (if has_col df2 "max_daily_demand" then Ok df2
           else a <- getitem df2 "avg_daily_demand" ;;
                Ok (setitem df2 "max_daily_demand" (series_mul2 a)))
    with (Ok df3).
  2:{ subst df3. destruct (has_col df2 "max_daily_demand"); [reflexivity |].
      by rewrite (getitem_Some _ _ _ Havg2). }
  assert (Hsame : forall c, c <> "max_daily_demand"%string -> cols df3 !! c = cols df2 !! c).
  { intros c Hc. subst df3. destruct (has_col df2 "max_daily_demand");
      [reflexivity | by rewrite cols_setitem_ne]. }
  assert (Hn3 : nrows df3 = n).
  { subst df3. by destruct (has_col df2 "max_daily_demand"). }
  assert (Hmax3 : forall col, cols df !! "max_daily_demand" = Some col ->
                              cols df3 !! "max_daily_demand" = Some col).
  { intros col Hcol. subst df3. unfold has_col. rewrite Hmax2, Hcol.
    cbn. by rewrite Hmax2. }
  clearbody df3. cbn [bind].
  set (df4 := default_if_absent df3 "total_stockouts" (CNum (Fin 0))).
  assert (Hts4 : cols df4 !! "total_stockouts" = Some (of_nums ts)).
  { subst df4. rewrite cols_default_eq, Hsame, Hts2, Hn3 by done. by f_equal. }
  rewrite (getitem_Some df4 "demand_std" (of_nums sd))
    by (subst df4; frame_lookup; by rewrite Hsame).
  cbn [bind].
  rewrite (getitem_Some df4 "avg_daily_demand" (of_nums avg))
    by (subst df4; frame_lookup; by rewrite Hsame).
  cbn [bind]. rewrite series_div_of_nums. cbn [bind].
  rewrite (getitem_Some _ "current_stock" (of_nums csn))
    by (subst df4; frame_lookup; by rewrite Hsame).
  cbn [bind].
  rewrite (getitem_Some _ "avg_daily_demand" (of_nums avg))
    by (subst df4; frame_lookup; by rewrite Hsame).
  cbn [bind]. rewrite series_div_of_nums. cbn [bind].
  rewrite (getitem_Some _ "total_stockouts" (of_nums ts))
    by (frame_lookup; exact Hts4).
  cbn [bind]. rewrite series_div_scalar_of_nums. cbn [bind].
  split; [reflexivity |].
  subst df4. frame_lookup. rewrite !Hsame by done.
  rewrite cols_default_eq, Hsame, Hts2, Hn3, Hts by done.
  repeat split; auto.
  intros col Hcol. frame_lookup. by apply Hmax3.
Qed.

End Prepare.


(** ** Sorting by descending score *)

Lemma fle_total (a b : fnum) :
  is_nan a = false -> is_nan b = false -> fle a b = false -> fle b a = true.
Proof.
  destruct a as [p | | |], b as [q | | |]; cbn; try done.
  intros _ _ H. apply Qle_bool_iff.
  destruct (Qle_bool_spec p q); [discriminate | lra].
Qed.

Lemma fle_trans (a b c : fnum) : fle a b = true -> fle b c = true -> fle a c = true.
Proof.
  destruct a as [p | | |], b as [q | | |], c as [r | | |]; cbn; try done.
  rewrite !Qle_bool_iff. lra.
Qed.

Lemma before_total (a b : fnum) : before a b = false -> before b a = true.
Proof.
  destruct a as [p | | |], b as [q | | |]; cbn; try done.
  intros H. apply Qle_bool_iff.
  destruct (Qle_bool_spec q p); [discriminate | lra].
Qed.

Lemma before_trans (a b c : fnum) :
  before a b = true -> before b c = true -> before a c = true.
Proof.
  destruct a as [p | | |], b as [q | | |], c as [r | | |]; cbn; try done.
  rewrite !Qle_bool_iff. lra.
Qed.

Lemma before_finite (p q : Q) : before (Fin p) (Fin q) = true <-> q <= p.
Proof. cbn. apply Qle_bool_iff. Qed.

Section InsertDesc.
Variable key : nat -> fnum.

Let ordered (i j : nat) : Prop := before (key i) (key j) = true.

Lemma insert_desc_perm (i : nat) (l : list nat) :
  Permutation (i :: l) (insert_desc key i l).
Proof.
  induction l as [| j l IH]; cbn; [reflexivity |].
  destruct (before (key i) (key j)); [reflexivity |].
  rewrite perm_swap. by constructor.
Qed.

Lemma insert_desc_sorted (i : nat) (l : list nat) :
  StronglySorted ordered l -> StronglySorted ordered (insert_desc key i l).
Proof.
  induction 1 as [| j l Hs IH Hall]; cbn.
  - repeat constructor.
  - destruct (before (key i) (key j)) eqn:E.
    + constructor; [by constructor |].
      constructor; [exact E |].
      eapply Forall_impl; [exact Hall |].
      intros k Hk. eapply before_trans; eauto.
    + constructor; [exact IH |].
      apply (Permutation_Forall (insert_desc_perm i l)).
      constructor; [by apply before_total | exact Hall].
Qed.

Lemma sort_desc_sorted (l : list nat) :
  StronglySorted ordered (foldr (insert_desc key) [] l).
Proof.
  induction l; cbn; [constructor | by apply insert_desc_sorted].
Qed.

Lemma sort_desc_perm (l : list nat) :
  Permutation l (foldr (insert_desc key) [] l).
Proof.
  induction l as [| i l IH]; cbn; [reflexivity |].
  rewrite <- insert_desc_perm. by constructor.
Qed.

End InsertDesc.

Lemma strongly_sorted_map {A B} (R : B -> B -> Prop) (f : A -> B) (l : list A) :
  StronglySorted (fun x y => R (f x) (f y)) l -> StronglySorted R (map f l).
Proof.
  induction 1 as [| x l Hs IH Hall]; cbn; constructor; auto.
  apply Forall_map. exact Hall.
Qed.

Lemma map_nth_seq {A} (l : list A) (d : A) :
  map (fun i => nth i l d) (seq 0 (length l)) = l.
Proof.
  induction l as [| x l IH] using rev_ind; [reflexivity |].
  rewrite length_app, Nat.add_comm. cbn [length Nat.add].
  rewrite seq_S, map_app. cbn. f_equal.
  - rewrite <- IH at 2. apply map_ext_in.
    intros i Hi. apply in_seq in Hi. rewrite app_nth1; [reflexivity | lia].
  - rewrite app_nth2, Nat.sub_diag; [reflexivity | lia].
Qed.

(** The scores in the order [sort_values] puts the rows in. *)
Lemma argsort_desc_sorted (keys : list fnum) :
  descending (map (fun i => nth i keys NaN) (argsort_desc keys)).
Proof.
  unfold descending, argsort_desc.
  apply strongly_sorted_map with (R := fun a b => before a b = true).
  apply sort_desc_sorted.
Qed.

Lemma argsort_desc_perm (keys : list fnum) :
  Permutation keys (map (fun i => nth i keys NaN) (argsort_desc keys)).
Proof.
  rewrite <- (map_nth_seq keys NaN) at 1.
  apply Permutation_map. apply sort_desc_perm.
Qed.

Lemma argsort_desc_length (keys : list fnum) :
  length (argsort_desc keys) = length keys.
Proof.
  unfold argsort_desc.
  rewrite <- (Permutation_length (sort_desc_perm _ _)). apply length_seq.
Qed.


(** ** The fallback on a table *)

(** On numbers (NaN and infinities included) the heuristic raises only for
    a zero lead time, and its score is between 0 and 1. *)
Lemma fallback_numbers (get : string -> cell -> cell) (x a l : fnum) :
  get "current_stock"%string (CNum (Fin 0)) = CNum x ->
  get "avg_daily_demand"%string (CNum (Fin 1)) = CNum a ->
  get "supplier_lead_time"%string (CNum (Fin 7)) = CNum l ->
  is_zero l = false ->
  exists s, fallback get = Ok (s, if fgt s (Fin (1 # 2)) then 1%Z else 0%Z)
            /\ unit_score s.
Proof.
  intros Hx Ha Hl Hz. unfold fallback. rewrite Hx, Ha, Hl.
  unfold py_max, py_gt, py_lt. cbn [bind].
  set (m := if flt a (Fin 1) then Fin 1 else a).
  replace (if flt a (Fin 1) then CNum (Fin 1) else CNum a) with (CNum m)
    by (subst m; by destruct (flt a (Fin 1))).
  assert (Hm : is_zero m = false).
  { subst m. destruct a as [q | | |]; cbn; try done.
    destruct (Qlt_bool_spec q 1); cbn; [done |].
    destruct (Qeq_bool_spec q 0); [lra | done]. }
  unfold py_truediv at 1. rewrite Hm. cbn [bind].
  assert (Hl2 : is_zero (fmul l (Fin 2)) = false).
  { destruct l as [q | | |]; cbn in *; try done.
    destruct (Qeq_bool_spec q 0); [done |].
    destruct (Qeq_bool_spec (q * 2) 0); [lra | done]. }
  unfold py_truediv, py_mul2. rewrite Hl2. cbn [bind].
  destruct (clamp_unit (fsub (Fin 1) (fdiv (fdiv x m) (fmul l (Fin 2)))))
    as (r & Hr & Hr0 & Hr1).
  eexists. split; [reflexivity |]. rewrite Hr. by exists r.
Qed.

(** A zero lead time makes the heuristic raise. *)
Lemma fallback_zero_lead_time (get : string -> cell -> cell) (x a : fnum) :
  get "current_stock"%string (CNum (Fin 0)) = CNum x ->
  get "avg_daily_demand"%string (CNum (Fin 1)) = CNum a ->
  get "supplier_lead_time"%string (CNum (Fin 7)) = CNum (Fin 0) ->
  fallback get = Raise ZeroDivisionError.
Proof.
  intros Hx Ha Hl. unfold fallback. rewrite Hx, Ha, Hl.
  unfold py_max, py_gt, py_lt. cbn [bind].
  set (m := if flt a (Fin 1) then Fin 1 else a).
  replace (if flt a (Fin 1) then CNum (Fin 1) else CNum a) with (CNum m)
    by (subst m; by destruct (flt a (Fin 1))).
  assert (Hm : is_zero m = false).
  { subst m. destruct a as [q | | |]; cbn; try done.
    destruct (Qlt_bool_spec q 1); cbn; [done |].
    destruct (Qeq_bool_spec q 0); [lra | done]. }
  unfold py_truediv at 1. rewrite Hm. reflexivity.
Qed.

Lemma nth_no_zero (xs : list fnum) (i : nat) :
  no_zero (of_nums xs) -> is_zero (nth i xs NaN) = false.
Proof.
  intros H. destruct (Nat.lt_ge_cases i (length xs)) as [Hi | Hi].
  - apply H. unfold of_nums. apply in_map. by apply nth_In.
  - by rewrite nth_overflow.
Qed.

Lemma fallback_row (df : DataFrame) (i : nat) :
  heuristic_ready df ->
  exists s, fallback (row_get df i) = Ok (s, if fgt s (Fin (1 # 2)) then 1%Z else 0%Z)
            /\ unit_score s.
Proof.
  intros ((cs & Hcs) & (avg & Havg) & Hlead).
  destruct (cols df !! "supplier_lead_time") as [col |] eqn:El.
  - destruct (Hlead col eq_refl) as [Hnum Hnz].
    destruct (numeric_inv _ Hnum) as [lt ->].
    apply (fallback_numbers _ (nth i cs NaN) (nth i avg NaN) (nth i lt NaN)).
    + unfold row_get. by rewrite Hcs, nth_of_nums.
    + unfold row_get. by rewrite Havg, nth_of_nums.
    + unfold row_get. by rewrite El, nth_of_nums.
    + by apply nth_no_zero.
  - apply (fallback_numbers _ (nth i cs NaN) (nth i avg NaN) (Fin 7)).
    + unfold row_get. by rewrite Hcs, nth_of_nums.
    + unfold row_get. by rewrite Havg, nth_of_nums.
    + unfold row_get. by rewrite El.
    + reflexivity.
Qed.

Lemma fallback_rows_ok (df : DataFrame) (rows : list nat) :
  heuristic_ready df ->
  exists predictions probabilities,
    fallback_rows df rows = Ok (predictions, probabilities)
    /\ length predictions = length rows
    /\ length probabilities = length rows
    /\ Forall unit_score probabilities.
Proof.
  intros Hready. induction rows as [| i rows IH]; cbn.
  - exists [], []. repeat split; constructor.
  - destruct (fallback_row df i Hready) as (s & -> & Hs).
    destruct IH as (ps & qs & -> & Hps & Hqs & Hall). cbn.
    eexists _, _. split; [reflexivity |]. cbn.
    repeat split; auto.
Qed.

(** ** The result table *)

Lemma setitem_list_ok (df : DataFrame) (c : string) (values : list cell) :
  length values = nrows df -> setitem_list df c values = Ok (setitem df c values).
Proof.
  intros H. unfold setitem_list. by rewrite H, Nat.eqb_refl.
Qed.

Lemma assemble_results_ok (inv : DataFrame) (predictions : list Z)
  (probabilities : list fnum) (now : string) :
  length predictions = nrows inv ->
  length probabilities = nrows inv ->
  exists results,
    assemble_results inv predictions probabilities now = Ok results
    /\ nrows results = nrows inv
    /\ cols results !! "risk_score"
       = Some (of_nums (map (fun i => nth i probabilities NaN)
                            (argsort_desc probabilities))).
Proof.
  intros Hp Hq. unfold assemble_results.
  rewrite setitem_list_ok by (by rewrite length_of_nums). cbn [bind].
  rewrite setitem_list_ok by (by rewrite length_map). cbn [bind].
  rewrite setitem_list_ok by (by rewrite length_map). cbn [bind].
  rewrite setitem_list_ok by (by rewrite length_map). cbn [bind].
  unfold sort_values_desc, set_scalar.
  rewrite (getitem_Some _ "risk_score" (of_nums probabilities))
    by (by rewrite !cols_setitem_ne, cols_setitem_eq by done).
  cbn [bind]. rewrite nums_of_nums. cbn [bind].
  eexists. split; [reflexivity |]. split.
  - cbn [take_rows nrows]. by rewrite argsort_desc_length.
  - cbn [take_rows cols]. rewrite lookup_fmap.
    rewrite !cols_setitem_ne, cols_setitem_eq by done. cbn.
    f_equal. unfold of_nums. rewrite map_map.
    apply map_ext. intros i. apply nth_of_nums.
Qed.


(** ** [predict_batch] *)

(** Evaluates the left side of an equation and compares the value with
    the right side. *)
Ltac by_evaluation :=
  etransitivity; [vm_compute; reflexivity | reflexivity].

Lemma of_nums_lookup' (xs : list fnum) (i : nat) (x : fnum) :
  of_nums xs !! i = Some (CNum x) -> xs !! i = Some x.
Proof.
  unfold of_nums. rewrite list_lookup_fmap.
  destruct (xs !! i); cbn; [by intros [= ->] | done].
Qed.

Section Batch.
Context `{SK : Sklearn}.

(** On a valid batch [prepare_prediction_data] returns a table with one
    row per inventory row, on which the heuristic can work. *)
Lemma prepare_ok (inv : DataFrame) (sales_history : option DataFrame) :
  valid_batch inv sales_history ->
  exists dfp cs avg,
    prepare_prediction_data inv sales_history = Ok dfp
    /\ nrows dfp = nrows inv
    /\ heuristic_ready dfp
    /\ cols dfp !! "current_stock" = Some (of_nums cs)
    /\ cols dfp !! "avg_daily_demand" = Some (of_nums avg)
    /\ cols dfp !! "stock_coverage_days" = Some (of_nums (zip_with fdiv cs avg)).
Proof.
  intros Hvalid.
  destruct Hvalid as [Hinv Hsales].
  destruct (join_sales_tracks inv sales_history (vi_wf _ Hinv) (vi_avg _ Hinv)
              (vi_std _ Hinv) (vi_stockouts _ Hinv) Hsales) as (df & Hjoin & Htr).
  destruct (vi_stock _ Hinv) as (cs & Hcs & Hcsn).
  destruct (numeric_inv _ Hcsn) as [csn ->].
  destruct (fill_and_derive_ok _ _ _ csn Htr Hcs)
    as (dfp & avg & sd & ts & Hfill & Hn & Hcs' & Hlt' & Havg & Hlen & Hcov & _).
  exists dfp, csn, avg. unfold prepare_prediction_data.
  rewrite Hjoin. cbn [bind].
  split; [exact Hfill |]. split; [exact Hn |].
  split; [| by repeat split].
  split; [by exists csn |]. split; [by exists avg |].
  intros lt Hcol. rewrite Hlt' in Hcol. by apply (vi_lead _ Hinv).
Qed.

Lemma unit_score_perm (l l' : list fnum) :
  Permutation l l' -> Forall unit_score l -> Forall unit_score l'.
Proof. intros Hp. by apply Permutation_Forall. Qed.

(** Where no lead time is zero: for every inventory batch of numeric rows
    (and every sales history that can be joined to it), if the model path
    raises, whatever the exception, then the fallback does not raise,
    [predict_batch] returns a table instead of raising, the table has one
    row per inventory row, and every risk score in it is a number between
    0 and 1. *)
Lemma fallback_returns_without_zero_lead_time (p : StockSensePredictor)
  (inv : DataFrame) (sales_history : option DataFrame) (now : string) :
  valid_batch inv sales_history ->
  (forall dfp, prepare_prediction_data inv sales_history = Ok dfp ->
               raises (model_path_predict p dfp)) ->
  exists dfp results scores,
    prepare_prediction_data inv sales_history = Ok dfp
    /\ returns (fallback_batch dfp)
    /\ predict_batch p inv sales_history now = Ok results
    /\ nrows results = nrows inv
    /\ cols results !! "risk_score" = Some (of_nums scores)
    /\ length scores = nrows inv
    /\ Forall unit_score scores.
Proof.
  intros Hvalid Hraise.
  destruct (prepare_ok inv sales_history Hvalid)
    as (dfp & cs & avg & Hprep & Hn & Hready & _).
  destruct (Hraise dfp Hprep) as [e He].
  destruct (fallback_rows_ok dfp (seq 0 (nrows dfp)) Hready)
    as (ps & qs & Hfb & Hps & Hqs & Hall).
  rewrite length_seq, Hn in Hps, Hqs.
  destruct (assemble_results_ok inv ps qs now Hps Hqs) as (results & Hres & Hrows & Hcol).
  exists dfp, results, (map (fun i => nth i qs NaN) (argsort_desc qs)).
  split; [exact Hprep |].
  split; [by exists (ps, qs) |].
  split.
  { unfold predict_batch. rewrite Hprep. cbn [bind].
    rewrite He. cbn [try_except]. unfold fallback_batch at 1. rewrite Hfb.
    cbn [bind]. exact Hres. }
  split; [exact Hrows |].
  split; [exact Hcol |].
  split.
  - by rewrite length_map, argsort_desc_length.
  - eapply unit_score_perm; [apply argsort_desc_perm | exact Hall].
Qed.

(** A lead time of zero makes the heuristic divide by zero. *)
Lemma fallback_zero_lead (get : string -> cell -> cell) (x a l : fnum) :
  get "current_stock"%string (CNum (Fin 0)) = CNum x ->
  get "avg_daily_demand"%string (CNum (Fin 1)) = CNum a ->
  get "supplier_lead_time"%string (CNum (Fin 7)) = CNum l ->
  is_zero l = true ->
  fallback get = Raise ZeroDivisionError.
Proof.
  intros Hx Ha Hl Hz. unfold fallback. rewrite Hx, Ha, Hl.
  unfold py_max, py_gt, py_lt. cbn [bind].
  set (m := if flt a (Fin 1) then Fin 1 else a).
  replace (if flt a (Fin 1) then CNum (Fin 1) else CNum a) with (CNum m)
    by (subst m; by destruct (flt a (Fin 1))).
  assert (Hm : is_zero m = false).
  { subst m. destruct a as [q | | |]; cbn; try done.
    destruct (Qlt_bool_spec q 1); cbn; [done |].
    destruct (Qeq_bool_spec q 0); [lra | done]. }
  unfold py_truediv at 1. rewrite Hm. cbn [bind].
  assert (Hl2 : is_zero (fmul l (Fin 2)) = true).
  { destruct l as [q | | |]; cbn in *; try done.
    destruct (Qeq_bool_spec q 0) as [Hq | Hq]; [| done].
    destruct (Qeq_bool_spec (q * 2) 0); [done | lra]. }
  unfold py_truediv, py_mul2. by rewrite Hl2.
Qed.

(** The loop of the fallback stops at the first row that raises. *)
Lemma fallback_rows_raises (df : DataFrame) (rows : list nat) (i : nat) :
  (forall j, returns (fallback (row_get df j))
             \/ fallback (row_get df j) = Raise ZeroDivisionError) ->
  In i rows ->
  fallback (row_get df i) = Raise ZeroDivisionError ->
  fallback_rows df rows = Raise ZeroDivisionError.
Proof.
  intros Hrows Hin Hi. induction rows as [| j rows IH]; [done |].
  cbn [fallback_rows].
  destruct (Hrows j) as [[sp Hsp] | Hz]; [| by rewrite Hz].
  rewrite Hsp. cbn [bind].
  destruct Hin as [-> | Hin]; [congruence |].
  by rewrite IH.
Qed.

(** C1.  The fallback of [predict_batch] can raise.  For every inventory
    batch of numeric rows (whose product ids are strings, so that a row is
    read as Python numbers) that has a row with a supplier lead time of
    zero, if the model path raises, the heuristic divides by
    [lead_time * 2 = 0]: the fallback raises ZeroDivisionError and
    [predict_batch] surfaces it to the caller instead of returning an
    assessment per row.  The code guards the demand with [max(..., 1)] but
    not the lead time. *)
Theorem predict_batch_raises_at_zero_lead_time (p : StockSensePredictor)
  (inv : DataFrame) (sales_history : option DataFrame) (now : string)
  (ids lt : list cell) (s : string) (i : nat) (x : fnum) :
  numeric_inventory inv ->
  match sales_history with
  | Some sh => valid_sales inv sh
  | None => True
  end ->
  cols inv !! "product_id" = Some ids -> In (CStr s) ids ->
  cols inv !! "supplier_lead_time" = Some lt ->
  lt !! i = Some (CNum x) -> is_zero x = true ->
  (forall dfp, prepare_prediction_data inv sales_history = Ok dfp ->
               raises (model_path_predict p dfp)) ->
  exists dfp,
    prepare_prediction_data inv sales_history = Ok dfp
    /\ fallback_batch dfp = Raise ZeroDivisionError
    /\ predict_batch p inv sales_history now = Raise ZeroDivisionError.
Proof.
  intros Hinv Hsales _ _ Hlt Hi Hx Hraise.
  destruct (join_sales_tracks inv sales_history (ni_wf _ Hinv) (ni_avg _ Hinv)
              (ni_std _ Hinv) (ni_stockouts _ Hinv) Hsales) as (df & Hjoin & Htr).
  destruct (ni_stock _ Hinv) as (cs & Hcs & Hcsn).
  destruct (numeric_inv _ Hcsn) as [csn ->].
  destruct (fill_and_derive_ok _ _ _ csn Htr Hcs)
    as (dfp & avg & sd & ts & Hfill & Hn & Hcs' & Hlt' & Havg & _).
  destruct (numeric_inv lt (ni_lead _ Hinv lt Hlt)) as [ltn ->].
  rewrite Hlt in Hlt'.
  assert (Hprep : prepare_prediction_data inv sales_history = Ok dfp).
  { unfold prepare_prediction_data. rewrite Hjoin. exact Hfill. }
  assert (Hget : forall j,
             row_get dfp j "current_stock" (CNum (Fin 0)) = CNum (nth j csn NaN)
             /\ row_get dfp j "avg_daily_demand" (CNum (Fin 1)) = CNum (nth j avg NaN)
             /\ row_get dfp j "supplier_lead_time" (CNum (Fin 7))
                = CNum (nth j ltn NaN)).
  { intros j. unfold row_get. rewrite Hcs', Havg, Hlt'.
    by rewrite !nth_of_nums. }
  assert (Hrows : forall j,
             returns (fallback (row_get dfp j))
             \/ fallback (row_get dfp j) = Raise ZeroDivisionError).
  { intros j. destruct (Hget j) as (G1 & G2 & G3).
    destruct (is_zero (nth j ltn NaN)) eqn:Hz.
    - right. by eapply fallback_zero_lead.
    - left. destruct (fallback_numbers _ _ _ _ G1 G2 G3 Hz) as (sc & -> & _).
      by eexists. }
  assert (Hxi : nth i ltn NaN = x).
  { apply of_nums_lookup' in Hi. by apply nth_lookup_Some with (d := NaN) in Hi. }
  assert (Hrow : fallback (row_get dfp i) = Raise ZeroDivisionError).
  { destruct (Hget i) as (G1 & G2 & G3).
    eapply fallback_zero_lead; eauto. by rewrite Hxi. }
  assert (Hlen : (i < nrows dfp)%nat).
  { rewrite Hn. apply lookup_lt_Some in Hi.
    pose proof (ni_wf _ Hinv _ _ Hlt) as Hw. cbn in Hw. lia. }
  assert (Hfb : fallback_batch dfp = Raise ZeroDivisionError).
  { unfold fallback_batch. apply (fallback_rows_raises dfp _ i Hrows); [| exact Hrow].
    apply in_seq. lia. }
  exists dfp. split; [exact Hprep |]. split; [exact Hfb |].
  unfold predict_batch. rewrite Hprep. cbn [bind].
  destruct (Hraise dfp Hprep) as [e ->]. cbn [try_except].
  by rewrite Hfb.
Qed.

Lemma descending_finite (scores : list fnum) :
  descending scores ->
  forall i j a b, (i <= j)%nat ->
    scores !! i = Some (Fin a) -> scores !! j = Some (Fin b) -> b <= a.
Proof.
  intros Hd i j a b Hij Hi Hj.
  destruct (decide (i = j)) as [-> | Hne].
  - rewrite Hi in Hj. injection Hj as ->. lra.
  - unfold descending in Hd. revert i j Hij Hne Hi Hj.
    induction Hd as [| x l Hs IH Hall]; intros i j Hij Hne Hi Hj; [done |].
    destruct i as [| i], j as [| j]; cbn in *; try lia.
    + simplify_eq. rewrite Forall_forall in Hall.
      apply before_finite. apply Hall.
      eapply list_elem_of_lookup_2. eauto.
    + eapply (IH i j); eauto; lia.
Qed.

(** C5.  For every valid inventory batch, whether the scores come from the
    model (one per row) or from the heuristic, [predict_batch] returns its
    rows sorted by descending risk score; three products with heuristic
    scores 0.2, 0.9, 0.5 come back in the order 0.9, 0.5, 0.2. *)
Theorem predict_batch_sorted_descending (p : StockSensePredictor)
  (inv : DataFrame) (sales_history : option DataFrame) (now : string) :
  valid_batch inv sales_history ->
  (forall dfp predictions probabilities,
     prepare_prediction_data inv sales_history = Ok dfp ->
     model_path_predict p dfp = Ok (predictions, probabilities) ->
     length predictions = nrows inv /\ length probabilities = nrows inv) ->
  (exists results scores,
     predict_batch p inv sales_history now = Ok results
     /\ cols results !! "risk_score" = Some (of_nums scores)
     /\ descending scores
     /\ (forall i j a b, (i <= j)%nat ->
           scores !! i = Some (Fin a) -> scores !! j = Some (Fin b) -> b <= a))
  /\ (exists dfp predictions heuristic_scores results scores,
        prepare_prediction_data (SK := offline) three_products None = Ok dfp
        /\ fallback_batch dfp = Ok (predictions, heuristic_scores)
        /\ has_values heuristic_scores [2 # 10; 9 # 10; 5 # 10]
        /\ predict_batch (SK := offline) broken_predictor three_products None now
           = Ok results
        /\ cols results !! "risk_score" = Some (of_nums scores)
        /\ has_values scores [9 # 10; 5 # 10; 2 # 10]).
Proof.
  intros Hvalid Hshape. split.
  - destruct (prepare_ok inv sales_history Hvalid)
      as (dfp & cs & avg & Hprep & Hn & Hready & _).
    assert (Hpp : exists ps qs,
               try_except (model_path_predict p dfp) (fun _ => fallback_batch dfp)
               = Ok (ps, qs)
               /\ length ps = nrows inv /\ length qs = nrows inv).
    { destruct (model_path_predict p dfp) as [[ps qs] | e] eqn:E.
      - exists ps, qs. split; [reflexivity | by eapply Hshape].
      - destruct (fallback_rows_ok dfp (seq 0 (nrows dfp)) Hready)
          as (ps & qs & Hfb & Hps & Hqs & _).
        rewrite length_seq, Hn in Hps, Hqs. by exists ps, qs. }
    destruct Hpp as (ps & qs & Hpp & Hps & Hqs).
    destruct (assemble_results_ok inv ps qs now Hps Hqs)
      as (results & Hres & _ & Hcol).
    exists results, (map (fun i => nth i qs NaN) (argsort_desc qs)).
    split.
    { unfold predict_batch. rewrite Hprep. cbn [bind]. rewrite Hpp.
      cbn [bind]. exact Hres. }
    split; [exact Hcol |].
    split; [apply argsort_desc_sorted |].
    apply descending_finite, argsort_desc_sorted.
  - eexists _, _, [Fin _; Fin _; Fin _], _, [Fin _; Fin _; Fin _].
    split; [by_evaluation |].
    split; [by_evaluation |].
    split; [repeat constructor; eexists; (split; [reflexivity | reflexivity]) |].
    split; [by_evaluation |].
    split; [by_evaluation |].
    repeat constructor; eexists; (split; [reflexivity | reflexivity]).
Qed.

End Batch.

(** The sample inventories are valid batches. *)
Lemma valid_three_products : valid_batch three_products None.
Proof.
  split; [| exact I]. split.
  - unfold wf_frame. apply (bool_decide_unpack _). vm_compute. reflexivity.
  - eexists. split; [vm_compute; reflexivity | reflexivity].
  - intros col H. vm_compute in H. discriminate.
  - intros col H. vm_compute in H. discriminate.
  - intros col H. vm_compute in H. discriminate.
  - intros col H. vm_compute in H. injection H as <-.
    split; [reflexivity |].
    intros x Hx. cbn in Hx. by destruct Hx as [[= <-] | [[= <-] | [[= <-] | []]]].
Qed.

Lemma broken_predictor_raises `{SK : Sklearn} (dfp : DataFrame) :
  raises (model_path_predict broken_predictor dfp).
Proof. exists (KeyError "model"). reflexivity. Qed.

Lemma predict_batch_raises_at_zero_lead_time_witness :
  exists dfp,
    prepare_prediction_data (SK := offline) zero_lead_product None = Ok dfp
    /\ fallback_batch dfp = Raise ZeroDivisionError
    /\ predict_batch (SK := offline) broken_predictor zero_lead_product None
         "2024-01-01" = Raise ZeroDivisionError.
Proof.
  apply (predict_batch_raises_at_zero_lead_time (SK := offline) broken_predictor
           zero_lead_product None "2024-01-01" [CStr "Z"] [CNum (Fin 0)] "Z"
           0 (Fin 0)).
  - split.
    + unfold wf_frame. apply (bool_decide_unpack _). vm_compute. reflexivity.
    + eexists. split; [vm_compute; reflexivity | reflexivity].
    + intros col H. vm_compute in H. discriminate.
    + intros col H. vm_compute in H. discriminate.
    + intros col H. vm_compute in H. discriminate.
    + intros col H. vm_compute in H. injection H as <-. reflexivity.
  - exact I.
  - vm_compute. reflexivity.
  - by left.
  - vm_compute. reflexivity.
  - reflexivity.
  - reflexivity.
  - intros dfp _. apply broken_predictor_raises.
Defined.

Lemma predict_batch_sorted_descending_witness :
  exists results scores,
    predict_batch (SK := offline) broken_predictor three_products None "2024-01-01"
    = Ok results
    /\ cols results !! "risk_score" = Some (of_nums scores)
    /\ descending scores.
Proof.
  destruct (predict_batch_sorted_descending (SK := offline) broken_predictor
              three_products None "2024-01-01" valid_three_products)
    as [(results & scores & H1 & H2 & H3 & _) _].
  - intros dfp ps qs _ H.
    destruct (broken_predictor_raises (SK := offline) dfp) as [e He].
    rewrite He in H. discriminate.
  - exists results, scores. exact (conj H1 (conj H2 H3)).
Defined.


(** ** The heuristic against the formula of the specification *)





(** ** [engineer_features] *)

Lemma cut_of_nums (b0 b1 b2 b3 : Q) (l1 l2 l3 l4 : string) (xs : list fnum) :
  cut b0 b1 b2 b3 l1 l2 l3 l4 (of_nums xs)
  = Ok (map (cut_value b0 b1 b2 b3 l1 l2 l3 l4) xs).
Proof. unfold cut. by rewrite nums_of_nums. Qed.

Lemma series_gt_scalar_of_nums (xs : list fnum) (k : fnum) :
  series_gt_scalar (of_nums xs) k = Ok (map (fun x => of_bool (fgt x k)) xs).
Proof. unfold series_gt_scalar. by rewrite nums_of_nums. Qed.

Lemma bind_ok {A B} (m : result A) (f : A -> result B) (b : B) :
  (x <- m ;; f x) = Ok b -> exists a, m = Ok a /\ f a = Ok b.
Proof. destruct m as [a | e]; cbn; [eauto | discriminate]. Qed.

Lemma getitem_ok (df : DataFrame) (c : string) (col : list cell) :
  getitem df c = Ok col -> cols df !! c = Some col.
Proof. unfold getitem. destruct (cols df !! c); [congruence | discriminate]. Qed.

(** Looks a column up in the table at hand, through the columns set on
    the way. *)
Ltac read_column :=
  match goal with
  | |- context [getitem ?df ?c] =>
      first
        [ erewrite (getitem_Some df c) by (frame_lookup; eassumption)
        | rewrite (getitem_None df c) by (frame_lookup; assumption) ]
  end; cbn [bind].

(** With its raw columns present and numeric, [engineer_features] does not
    raise. *)
Lemma engineer_features_ok (data : DataFrame) (price avg ts lt sf scd : list fnum)
  (dv : list cell) :
  cols data !! "demand_variability" = Some dv ->
  cols data !! "price" = Some (of_nums price) ->
  cols data !! "avg_daily_demand" = Some (of_nums avg) ->
  cols data !! "total_stockouts" = Some (of_nums ts) ->
  cols data !! "supplier_lead_time" = Some (of_nums lt) ->
  cols data !! "seasonal_factor" = Some (of_nums sf) ->
  cols data !! "stock_coverage_days" = Some (of_nums scd) ->
  engineer_features data = Ok (engineered data price avg ts lt sf scd dv).
Proof.
  intros Hdv Hprice Havg Hts Hlt Hsf Hscd. unfold engineer_features.
  read_column. read_column. rewrite cut_of_nums. cbn [bind].
  read_column. rewrite cut_of_nums. cbn [bind].
  read_column. rewrite series_div_scalar_of_nums. cbn [bind].
  read_column. rewrite nums_of_nums. cbn [bind].
  rewrite series_gt_scalar_of_nums. cbn [bind].
  read_column. rewrite series_gt_scalar_of_nums. cbn [bind].
  read_column. rewrite series_gt_scalar_of_nums. cbn [bind].
  read_column. read_column. rewrite series_div_of_nums. cbn [bind].
  reflexivity.
Qed.

Ltac frame_lookup_in H :=
  repeat first
    [ rewrite cols_setitem_ne in H by done
    | rewrite cols_setitem_categorical_ne in H by done
    | rewrite cols_setitem_eq in H
    | rewrite cols_setitem_categorical_eq in H ].

(** Whatever its columns hold, [engineer_features] returns only when it
    found every raw column it reads. *)
Lemma engineer_features_reads (data de : DataFrame) :
  engineer_features data = Ok de ->
  forall c, In c required_raw_columns -> is_Some (cols data !! c).
Proof.
  intros H. unfold engineer_features in H.
  repeat (apply bind_ok in H as (? & ? & H)).
  repeat match goal with
         | Hg : getitem _ _ = Ok _ |- _ =>
             apply getitem_ok in Hg; frame_lookup_in Hg
         end.
  intros c Hc. cbn in Hc.
  repeat (destruct Hc as [<- | Hc]; [eauto |]). done.
Qed.

Ltac run_features :=
  repeat first
    [ read_column
    | rewrite cut_of_nums; cbn [bind]
    | rewrite series_div_scalar_of_nums; cbn [bind]
    | rewrite nums_of_nums; cbn [bind]
    | rewrite series_gt_scalar_of_nums; cbn [bind]
    | rewrite series_div_of_nums; cbn [bind] ].

(** Splits on the presence of the raw column [c]; a present column holds
    numbers. *)
Ltac split_column data Hnum c :=
  let E := fresh "E" in
  let col := fresh "col" in
  destruct (cols data !! c) as [col |] eqn:E;
  [ let Hn := fresh in
    assert (Hn : numeric col) by (apply (Hnum c); [cbn; tauto | exact E]);
    apply numeric_inv in Hn as [? ->]
  | ].

Lemma engineer_features_first_absent (data : DataFrame) :
  numeric_raw_columns data ->
  match first_absent data with
  | Some c => In c required_raw_columns /\ cols data !! c = None
              /\ engineer_features data = Raise (KeyError c)
  | None => returns (engineer_features data)
  end.
Proof.
  intros Hnum. unfold first_absent, required_raw_columns, has_col.
  cbn [find].
  split_column data Hnum "demand_variability"%string; cbn [negb];
    [| split; [cbn; tauto | split; [done |]];
       unfold engineer_features; by run_features].
  split_column data Hnum "price"%string; cbn [negb];
    [| split; [cbn; tauto | split; [done |]];
       unfold engineer_features; by run_features].
  split_column data Hnum "avg_daily_demand"%string; cbn [negb];
    [| split; [cbn; tauto | split; [done |]];
       unfold engineer_features; by run_features].
  split_column data Hnum "total_stockouts"%string; cbn [negb];
    [| split; [cbn; tauto | split; [done |]];
       unfold engineer_features; by run_features].
  split_column data Hnum "supplier_lead_time"%string; cbn [negb];
    [| split; [cbn; tauto | split; [done |]];
       unfold engineer_features; by run_features].
  split_column data Hnum "seasonal_factor"%string; cbn [negb];
    [| split; [cbn; tauto | split; [done |]];
       unfold engineer_features; by run_features].
  split_column data Hnum "stock_coverage_days"%string; cbn [negb];
    [| split; [cbn; tauto | split; [done |]];
       unfold engineer_features; by run_features].
  eexists. by eapply engineer_features_ok.
Qed.

(** C7.  For every input table that lacks a required raw column,
    [engineer_features] raises; when the raw columns that are present hold
    numbers, what it raises is the KeyError of the first absent column (the
    missing-input error the specification calls FeatureError).  It does not
    raise when every raw column is present, also when the columns are empty
    or hold only missing values. *)
Theorem engineer_features_missing_column (data : DataFrame) :
  (forall c, In c required_raw_columns -> cols data !! c = None ->
             raises (engineer_features data))
  /\ (numeric_raw_columns data ->
      forall c, first_absent data = Some c ->
        In c required_raw_columns /\ cols data !! c = None
        /\ engineer_features data = Raise (KeyError c))
  /\ (numeric_raw_columns data -> first_absent data = None ->
      returns (engineer_features data)).
Proof.
  split; [| split].
  - intros c Hc Habs.
    destruct (engineer_features data) as [de | e] eqn:E; [| by exists e].
    destruct (engineer_features_reads data de E c Hc) as [col Hcol]. congruence.
  - intros Hnum c Hc.
    pose proof (engineer_features_first_absent data Hnum) as H.
    by rewrite Hc in H.
  - intros Hnum Hc.
    pose proof (engineer_features_first_absent data Hnum) as H.
    by rewrite Hc in H.
Qed.

Lemma numeric_raw_blank : numeric_raw_columns blank_table.
Proof.
  intros c Hc col Hcol. cbn in Hc.
  repeat (destruct Hc as [<- | Hc];
          [vm_compute in Hcol; by injection Hcol as <- |]).
  done.
Qed.

Lemma numeric_raw_no_rows : numeric_raw_columns no_rows.
Proof.
  intros c Hc col Hcol. cbn in Hc.
  repeat (destruct Hc as [<- | Hc];
          [vm_compute in Hcol; by injection Hcol as <- |]).
  done.
Qed.

Lemma numeric_raw_without_price : numeric_raw_columns without_price.
Proof.
  intros c Hc col Hcol. cbn in Hc.
  repeat (destruct Hc as [<- | Hc];
          [vm_compute in Hcol; first [discriminate | by injection Hcol as <-] |]).
  done.
Qed.

Lemma engineer_features_missing_column_witness :
  engineer_features without_price = Raise (KeyError "price")
  /\ returns (engineer_features blank_table)
  /\ returns (engineer_features no_rows).
Proof.
  split; [| split].
  - apply (engineer_features_missing_column without_price).
    + exact numeric_raw_without_price.
    + vm_compute. reflexivity.
  - apply (engineer_features_missing_column blank_table).
    + exact numeric_raw_blank.
    + vm_compute. reflexivity.
  - apply (engineer_features_missing_column no_rows).
    + exact numeric_raw_no_rows.
    + vm_compute. reflexivity.
Defined.


(** ** The coverage and health columns *)

Lemma valid_slow_mover : valid_batch slow_mover None.
Proof.
  split; [| exact I]. split.
  - unfold wf_frame. apply (bool_decide_unpack _). vm_compute. reflexivity.
  - eexists. split; [vm_compute; reflexivity | reflexivity].
  - intros col H. vm_compute in H. by injection H as <-.
  - intros col H. vm_compute in H. discriminate.
  - intros col H. vm_compute in H. discriminate.
  - intros col H. vm_compute in H. injection H as <-.
    split; [reflexivity |].
    intros x Hx. cbn in Hx. by destruct Hx as [[= <-] | []].
Qed.

Section Coverage.
Context `{SK : Sklearn}.

(** C6, as amended.  For every valid batch [prepare_prediction_data]
    computes [stock_coverage_days] as the float quotient of [current_stock]
    by [avg_daily_demand], and on numeric raw columns [engineer_features]
    computes [stock_health_score] as the float quotient of
    [stock_coverage_days] by [supplier_lead_time]; nothing replaces a
    demand below 1 by 1.  Neither division raises: a divisor other than
    zero gives the rational quotient, and a zero divisor gives an infinity
    or NaN. *)
Theorem stock_health_score_unguarded (inv : DataFrame)
  (sales_history : option DataFrame) :
  valid_batch inv sales_history ->
  (exists dfp cs avg,
     prepare_prediction_data inv sales_history = Ok dfp
     /\ cols dfp !! "current_stock" = Some (of_nums cs)
     /\ cols dfp !! "avg_daily_demand" = Some (of_nums avg)
     /\ cols dfp !! "stock_coverage_days" = Some (of_nums (zip_with fdiv cs avg)))
  /\ (forall data price avg ts lt sf scd dv,
        cols data !! "demand_variability" = Some dv ->
        cols data !! "price" = Some (of_nums price) ->
        cols data !! "avg_daily_demand" = Some (of_nums avg) ->
        cols data !! "total_stockouts" = Some (of_nums ts) ->
        cols data !! "supplier_lead_time" = Some (of_nums lt) ->
        cols data !! "seasonal_factor" = Some (of_nums sf) ->
        cols data !! "stock_coverage_days" = Some (of_nums scd) ->
        exists de,
          engineer_features data = Ok de
          /\ cols de !! "stock_health_score" = Some (of_nums (zip_with fdiv scd lt)))
  /\ (forall p q, ~ q == 0 -> fdiv (Fin p) (Fin q) = Fin (p / q))
  /\ (forall p q, q == 0 ->
        fdiv (Fin p) (Fin q) = PInf \/ fdiv (Fin p) (Fin q) = NInf
        \/ fdiv (Fin p) (Fin q) = NaN).
Proof.
  intros Hvalid. split; [| split; [| split]].
  - destruct (prepare_ok inv sales_history Hvalid)
      as (dfp & cs & avg & Hprep & _ & _ & Hcs & Havg & Hcov).
    by exists dfp, cs, avg.
  - intros data price avg ts lt sf scd dv Hdv Hprice Havg Hts Hlt Hsf Hscd.
    eexists. split; [by eapply engineer_features_ok |].
    unfold engineered. apply cols_setitem_eq.
  - intros p q Hq. cbn. by destruct (Qeq_bool_spec q 0).
  - intros p q Hq. cbn. destruct (Qeq_bool_spec q 0); [| done].
    destruct (Qeq_bool p 0); [auto |]. destruct (Qlt_bool 0 p); auto.
Qed.

End Coverage.

Lemma stock_health_score_unguarded_witness :
  exists dfp cs avg,
    prepare_prediction_data (SK := offline) slow_mover None = Ok dfp
    /\ cols dfp !! "current_stock" = Some (of_nums cs)
    /\ cols dfp !! "avg_daily_demand" = Some (of_nums avg)
    /\ cols dfp !! "stock_coverage_days" = Some (of_nums (zip_with fdiv cs avg)).
Proof.
  exact (proj1 (stock_health_score_unguarded (SK := offline) slow_mover None
                  valid_slow_mover)).
Defined.

(** With a demand of one half the code computes a coverage of 20 days and
    a health score of 4, where the guarded formula gives 10 and 2; with a
    demand of zero the code divides by zero and gets an infinity. *)
Lemma stock_coverage_guard_counterexample :
  (exists dfp de q h,
     prepare_prediction_data (SK := offline) slow_mover None = Ok dfp
     /\ cols dfp !! "stock_coverage_days" = Some [CNum (Fin q)]
     /\ q == 20
     /\ ~ q == spec_stock_coverage_days 10 (1 # 2)
     /\ engineer_features dfp = Ok de
     /\ cols de !! "stock_health_score" = Some [CNum (Fin h)]
     /\ h == 4
     /\ ~ h == spec_stock_health_score 10 (1 # 2) 5)
  /\ (exists dfp,
        prepare_prediction_data (SK := offline) no_demand None = Ok dfp
        /\ cols dfp !! "stock_coverage_days" = Some [CNum PInf]).
Proof.
  split.
  - eexists _, _, _, _.
    split; [by_evaluation |].
    split; [by_evaluation |].
    split; [vm_compute; reflexivity |].
    split; [intros H; vm_compute in H; discriminate |].
    split; [by_evaluation |].
    split; [by_evaluation |].
    split; [vm_compute; reflexivity |].
    intros H. vm_compute in H. discriminate.
  - eexists. split; by_evaluation.
Qed.


(** ** The left join with the sales aggregates *)

Lemma group_values_absent {A} (keys : list cell) (vals : list A) (p : string) :
  ~ In (CStr p) keys -> group_values keys vals !! p = None.
Proof.
  unfold group_values. revert vals.
  induction keys as [| k keys IH]; intros vals Hp; [done |].
  destruct vals as [| v vals]; [done |]. cbn.
  assert (Hrest : ~ In (CStr p) keys) by (intros H; apply Hp; by right).
  destruct k as [x | s]; cbn; [by apply IH |].
  rewrite lookup_insert_ne; [by apply IH |].
  intros ->. apply Hp. by left.
Qed.

Lemma lookup_map {A B} (f : A -> B) (l : list A) (i : nat) :
  map f l !! i = f <$> (l !! i).
Proof. exact (list_lookup_fmap f l i). Qed.

Lemma fdiv_nan_r (x : fnum) : fdiv x NaN = NaN.
Proof. by destruct x. Qed.

Lemma of_nums_lookup (xs : list fnum) (i : nat) (x : fnum) :
  of_nums xs !! i = Some (CNum x) -> xs !! i = Some x.
Proof.
  unfold of_nums. intros H. rewrite lookup_map in H.
  destruct (xs !! i) as [y |]; [| discriminate].
  cbn in H. by injection H as ->.
Qed.

(** [fill_and_derive] leaves the columns it does not name as they are. *)
Lemma fill_and_derive_frame (df dfp : DataFrame) (c : string) :
  fill_and_derive df = Ok dfp ->
  (forall name, In name ["avg_daily_demand"; "demand_std"; "max_daily_demand";
                         "total_stockouts"; "demand_variability";
                         "stock_coverage_days"; "stockout_rate"; "price";
                         "category"; "subcategory"; "seasonal_factor";
                         "weekend_sales_ratio"; "holiday_sales_ratio"]%string ->
                name <> c) ->
  cols dfp !! c = cols df !! c.
Proof.
  intros H Hc. unfold fill_and_derive in H.
  repeat match type of H with
         | bind ?m _ = Ok _ =>
             let E := fresh "E" in
             destruct m eqn:E; cbn [bind] in H; [| discriminate]
         end.
  injection H as <-.
  repeat match goal with
         | |- context [default_if_absent _ ?n _] =>
             rewrite (cols_default_ne _ n c) by (apply Hc; cbn; tauto)
         | |- context [setitem _ ?n _] =>
             rewrite (cols_setitem_ne _ n c) by (apply Hc; cbn; tauto)
         end.
  match goal with
  | E : (if ?b then _ else _) = Ok _ |- _ => destruct b; [injection E as <- |]
  end.
  - repeat match goal with
         | |- context [default_if_absent _ ?n _] =>
             rewrite (cols_default_ne _ n c) by (apply Hc; cbn; tauto)
         end. reflexivity.
  - match goal with
    | E : bind ?m _ = Ok _ |- _ => destruct m; cbn [bind] in E; [| discriminate];
                                   injection E as <-
    end.
    repeat match goal with
         | |- context [default_if_absent _ ?n _] =>
             rewrite (cols_default_ne _ n c) by (apply Hc; cbn; tauto)
         | |- context [setitem _ ?n _] =>
             rewrite (cols_setitem_ne _ n c) by (apply Hc; cbn; tauto)
         end. reflexivity.
Qed.

Lemma of_nums_inj (xs ys : list fnum) : of_nums xs = of_nums ys -> xs = ys.
Proof.
  revert ys. induction xs as [| x xs IH]; intros [| y ys]; cbn; try done.
  intros [= -> H]. f_equal. by apply IH.
Qed.

Lemma of_nums_replicate (n : nat) (x : fnum) :
  replicate n (CNum x) = of_nums (replicate n x).
Proof. unfold of_nums. by rewrite <- fmap_replicate. Qed.

Section Join.
Context `{SK : Sklearn}.

(** The aggregates know only the products of the sales history. *)
Lemma aggregate_sales_absent (sh : DataFrame) (sids : list cell) (p : string) :
  (exists d, cols sh !! "daily_demand" = Some d /\ numeric d) ->
  (exists s, cols sh !! "stockout" = Some s /\ numeric s) ->
  cols sh !! "product_id" = Some sids ->
  ~ In (CStr p) sids ->
  exists agg, aggregate_sales sh = Ok agg /\ agg !! p = None.
Proof.
  intros (d & Hd & Hdn) (s & Hs & Hsn) Hids Hp.
  unfold aggregate_sales.
  rewrite (getitem_Some _ _ _ Hids), (getitem_Some _ _ _ Hd),
    (getitem_Some _ _ _ Hs). cbn.
  destruct (nums_numeric _ Hdn) as [dn ->].
  destruct (nums_numeric _ Hsn) as [sn ->]. cbn.
  eexists. split; [reflexivity |].
  rewrite map_lookup_zip_with. rewrite !group_values_absent by exact Hp.
  reflexivity.
Qed.

Lemma agg_column_absent (agg : gmap string SalesAgg) (f : SalesAgg -> fnum)
  (ids : list cell) (i : nat) (p : string) :
  ids !! i = Some (CStr p) -> agg !! p = None ->
  map (fun o : option SalesAgg => CNum (from_option f NaN o))
      (map (fun c => match c with CStr q => agg !! q | CNum _ => None end) ids)
  !! i = Some (CNum NaN).
Proof.
  intros Hi Hp. rewrite !lookup_map, Hi. cbn. by rewrite Hp.
Qed.

(** Where the join behaves as a left join should.  For every well-formed
    inventory table that does not itself carry a column named like one of
    the sales aggregates, and every sales history, a product of the
    inventory that the sales history does
    not mention has NaN for [avg_daily_demand], [demand_std],
    [max_daily_demand] and [total_stockouts] after the left join: the
    defaults are not applied to it, because these columns now exist.  Its
    derived [demand_variability] and [stock_coverage_days] are NaN as
    well. *)
Lemma left_join_missing_product_nan (inv sh : DataFrame)
  (ids sids : list cell) (i : nat) (p : string) :
  wf_frame inv ->
  (forall c, In c aggregate_names -> cols inv !! c = None) ->
  (exists cs, cols inv !! "current_stock" = Some cs /\ numeric cs) ->
  valid_sales inv sh ->
  cols inv !! "product_id" = Some ids ->
  cols sh !! "product_id" = Some sids ->
  ids !! i = Some (CStr p) ->
  ~ In (CStr p) sids ->
  exists dfp,
    prepare_prediction_data inv (Some sh) = Ok dfp
    /\ cell_of dfp "avg_daily_demand" i = Some (CNum NaN)
    /\ cell_of dfp "demand_std" i = Some (CNum NaN)
    /\ cell_of dfp "max_daily_demand" i = Some (CNum NaN)
    /\ cell_of dfp "total_stockouts" i = Some (CNum NaN)
    /\ cell_of dfp "demand_variability" i = Some (CNum NaN)
    /\ cell_of dfp "stock_coverage_days" i = Some (CNum NaN).
Proof.
  intros Hwf Hfree (cs & Hcs & Hcsn) Hsales Hids Hsids Hi Hp.
  destruct (numeric_inv _ Hcsn) as [csn ->].
  assert (Hnone : forall c, In c aggregate_names -> numeric_if_present inv c).
  { intros c Hc col Hcol. rewrite (Hfree c Hc) in Hcol. discriminate. }
  destruct (join_sales_tracks inv (Some sh) Hwf) as (df & Hjoin & Htr);
    [apply Hnone; cbn; tauto.. | exact Hsales |].
  destruct (aggregate_sales_absent sh sids p (vs_demand _ _ Hsales)
              (vs_stockout _ _ Hsales) Hsids Hp) as (agg & Hagg & Haggp).
  assert (Hdf : exists found,
             found !! i = Some None
             /\ cols df !! "avg_daily_demand"
                = Some (map (fun o : option SalesAgg =>
                               CNum (from_option agg_mean NaN o)) found)
             /\ cols df !! "demand_std"
                = Some (map (fun o : option SalesAgg =>
                               CNum (from_option agg_std NaN o)) found)
             /\ cols df !! "max_daily_demand"
                = Some (map (fun o : option SalesAgg =>
                               CNum (from_option agg_max NaN o)) found)
             /\ cols df !! "total_stockouts"
                = Some (map (fun o : option SalesAgg =>
                               CNum (from_option agg_sum NaN o)) found)).
  { cbn in Hjoin. rewrite Hagg in Hjoin. cbn in Hjoin.
    unfold merge_left in Hjoin. rewrite (getitem_Some _ _ _ Hids) in Hjoin.
    cbn [bind] in Hjoin. injection Hjoin as <-.
    exists (map (fun c => match c with
                          | CStr q => agg !! q
                          | CNum _ => None
                          end) ids).
    split.
    { rewrite lookup_map, Hi. cbn. by rewrite Haggp. }
    unfold add_merged.
    rewrite !Hfree by (cbn; tauto).
    repeat split; by frame_lookup. }
  destruct Hdf as (found & Hfi & Hdavg & Hdsd & Hdmax & Hdts).
  destruct (fill_and_derive_ok _ _ _ csn Htr Hcs)
    as (dfp & avg & sd & ts & Hfill & Hn & Hcs' & _ & Havg & Hlavg & Hcov
        & Eavg & Esd & Ets & Hsd & Hts & Hdv & Hmax).
  rewrite Hdavg in Eavg. rewrite Hdsd in Esd. rewrite Hdts in Ets.
  cbn in Eavg, Esd, Ets.
  assert (Hcell : forall f : SalesAgg -> fnum,
             map (fun o : option SalesAgg => CNum (from_option f NaN o)) found
             !! i = Some (CNum NaN)).
  { intros f. by rewrite lookup_map, Hfi. }
  assert (Havg_i : avg !! i = Some NaN).
  { apply of_nums_lookup. rewrite <- Eavg. apply Hcell. }
  assert (Hsd_i : sd !! i = Some NaN).
  { apply of_nums_lookup. rewrite <- Esd. apply Hcell. }
  assert (Hcs_i : exists x, csn !! i = Some x).
  { apply lookup_lt_is_Some.
    rewrite <- length_of_nums, (Hwf _ _ Hcs), <- (Hwf _ _ Hids).
    apply lookup_lt_is_Some. eauto. }
  destruct Hcs_i as [x Hx].
  exists dfp. unfold prepare_prediction_data. rewrite Hjoin. cbn [bind].
  split; [exact Hfill |]. unfold cell_of.
  rewrite Havg, Hsd, (Hmax _ Hdmax), Hts, Hdv, Hcov.
  rewrite <- Eavg, <- Esd, <- Ets, !Hcell.
  repeat split.
  - unfold of_nums.
    rewrite lookup_map, lookup_zip_with, Hsd_i. cbn. by rewrite Havg_i.
  - unfold of_nums.
    rewrite lookup_map, lookup_zip_with, Hx. cbn. rewrite Havg_i. cbn.
    by rewrite fdiv_nan_r.
Qed.

(** C10.  The join discards the demand the inventory and the sales history
    give.  For every numeric inventory that carries a column
    [avg_daily_demand] of its own and every sales history that can be
    joined to it, [merge] renames both demand columns
    ([avg_daily_demand_x] keeps the inventory's values,
    [avg_daily_demand_y] the aggregates), the test
    ['avg_daily_demand' not in df.columns] then holds, and the default 10
    is written for every product: the products the sales history does not
    mention get 10, not NaN, and so do the ones it mentions; the coverage
    is [current_stock / 10].  Without a sales history the same inventory
    keeps its own demand. *)
Theorem sales_join_discards_inventory_demand (inv sh : DataFrame)
  (ids own : list cell) (csn : list fnum) :
  wf_frame inv ->
  cols inv !! "product_id" = Some ids ->
  cols inv !! "current_stock" = Some (of_nums csn) ->
  cols inv !! "avg_daily_demand" = Some own ->
  numeric own ->
  numeric_if_present inv "demand_std" ->
  numeric_if_present inv "total_stockouts" ->
  valid_sales inv sh ->
  exists dfp dfp0 agg,
    prepare_prediction_data inv (Some sh) = Ok dfp
    /\ cols dfp !! "avg_daily_demand"
       = Some (replicate (nrows inv) (CNum (Fin 10)))
    /\ cols dfp !! "avg_daily_demand_x" = Some own
    /\ aggregate_sales sh = Ok agg
    /\ cols dfp !! "avg_daily_demand_y"
       = Some (map (fun c => CNum (from_option agg_mean NaN
                                    match c with
                                    | CStr q => agg !! q
                                    | CNum _ => None
                                    end)) ids)
    /\ cols dfp !! "stock_coverage_days"
       = Some (of_nums (zip_with fdiv csn (replicate (nrows inv) (Fin 10))))
    /\ prepare_prediction_data inv None = Ok dfp0
    /\ cols dfp0 !! "avg_daily_demand" = Some own.
Proof.
  intros Hwf Hids Hcs Hown Hnum Hstd Hts Hsales.
  assert (Havgn : numeric_if_present inv "avg_daily_demand").
  { intros col Hcol. rewrite Hown in Hcol. by injection Hcol as <-. }
  (* with the sales history *)
  destruct (join_sales_tracks inv (Some sh) Hwf Havgn Hstd Hts Hsales)
    as (df & Hjoin & Htr).
  assert (Hagg : exists agg, aggregate_sales sh = Ok agg
                             /\ merge_left inv agg = Ok df).
  { cbn in Hjoin. apply bind_ok in Hjoin as (agg & Ha & Hm). by exists agg. }
  destruct Hagg as (agg & Hagg & Hmerge).
  assert (Hdf : cols df !! "avg_daily_demand" = None
                /\ cols df !! "avg_daily_demand_x" = Some own
                /\ cols df !! "avg_daily_demand_y"
                   = Some (map (fun c => CNum (from_option agg_mean NaN
                                                match c with
                                                | CStr q => agg !! q
                                                | CNum _ => None
                                                end)) ids)).
  { unfold merge_left in Hmerge. rewrite (getitem_Some _ _ _ Hids) in Hmerge.
    cbn [bind] in Hmerge. injection Hmerge as <-.
    split; [| split]; rewrite !cols_add_merged_ne by done.
    - rewrite cols_add_merged_eq. by rewrite Hown.
    - unfold add_merged. rewrite Hown. cbn [cols].
      rewrite lookup_insert_ne by done. by rewrite lookup_insert_eq.
    - unfold add_merged. rewrite Hown. cbn [cols].
      rewrite lookup_insert_eq. by rewrite map_map. }
  destruct Hdf as (Hnone & Hx & Hy).
  destruct (fill_and_derive_ok _ _ _ csn Htr Hcs)
    as (dfp & avg & sd & ts & Hfill & Hn & _ & _ & Havg & Hlavg & Hcov
        & Eavg & _).
  rewrite Hnone in Eavg. cbn in Eavg.
  rewrite of_nums_replicate in Eavg. apply of_nums_inj in Eavg. subst avg.
  (* without it *)
  destruct (fill_and_derive_ok (nrows inv) inv inv csn
              (tracks_refl inv Hwf Havgn Hstd Hts) Hcs)
    as (dfp0 & avg0 & sd0 & ts0 & Hfill0 & _ & _ & _ & Havg0 & _ & _ & Eavg0 & _).
  rewrite Hown in Eavg0. cbn in Eavg0.
  exists dfp, dfp0, agg.
  split; [unfold prepare_prediction_data; rewrite Hjoin; exact Hfill |].
  split; [by rewrite Havg, of_nums_replicate |].
  split; [by rewrite (fill_and_derive_frame _ _ _ Hfill)
            by (cbn; intros name Hname; intuition (by subst)) |].
  split; [exact Hagg |].
  split; [by rewrite (fill_and_derive_frame _ _ _ Hfill)
            by (cbn; intros name Hname; intuition (by subst)) |].
  split; [exact Hcov |].
  split; [exact Hfill0 |].
  by rewrite Havg0, <- Eavg0.
Qed.

End Join.

Lemma left_join_missing_product_nan_witness :
  exists dfp,
    prepare_prediction_data (SK := offline) two_products (Some sales_of_first) = Ok dfp
    /\ cell_of dfp "avg_daily_demand" 1 = Some (CNum NaN)
    /\ cell_of dfp "demand_std" 1 = Some (CNum NaN)
    /\ cell_of dfp "max_daily_demand" 1 = Some (CNum NaN)
    /\ cell_of dfp "total_stockouts" 1 = Some (CNum NaN)
    /\ cell_of dfp "demand_variability" 1 = Some (CNum NaN)
    /\ cell_of dfp "stock_coverage_days" 1 = Some (CNum NaN).
Proof.
  apply (left_join_missing_product_nan (SK := offline) two_products sales_of_first
           [CStr "P1"; CStr "P2"] [CStr "P1"; CStr "P1"] 1 "P2").
  - unfold wf_frame. apply (bool_decide_unpack _). vm_compute. reflexivity.
  - intros c Hc. cbn in Hc.
    repeat (destruct Hc as [<- | Hc]; [vm_compute; reflexivity |]). done.
  - eexists. split; [vm_compute; reflexivity | reflexivity].
  - split.
    + eexists. vm_compute. reflexivity.
    + eexists. vm_compute. reflexivity.
    + eexists. split; [vm_compute; reflexivity | reflexivity].
    + eexists. split; [vm_compute; reflexivity | reflexivity].
  - vm_compute. reflexivity.
  - vm_compute. reflexivity.
  - reflexivity.
  - cbn. intros [H | [H | []]]; discriminate.
Defined.

(** On the sample inventory that has a demand column of its own: after the join the
    table has [avg_daily_demand_x] and [avg_daily_demand_y] and no
    [avg_daily_demand], so the default 10 is applied to every product, the
    one the sales history does not mention included, and its coverage is a
    number. *)
Lemma left_join_default_counterexample :
  exists dfp q,
    prepare_prediction_data (SK := offline) two_products_with_demand
      (Some sales_of_first) = Ok dfp
    /\ cell_of two_products_with_demand "product_id" 1 = Some (CStr "P2")
    /\ cols sales_of_first !! "product_id" = Some [CStr "P1"; CStr "P1"]
    /\ cell_of dfp "avg_daily_demand" 1 = Some (CNum (Fin 10))
    /\ cell_of dfp "avg_daily_demand" 1 <> Some (CNum NaN)
    /\ cell_of dfp "stock_coverage_days" 1 = Some (CNum (Fin q))
    /\ q == 7 # 10.
Proof.
  eexists _, _.
  split; [by_evaluation |].
  split; [vm_compute; reflexivity |].
  split; [vm_compute; reflexivity |].
  split; [vm_compute; reflexivity |].
  split; [vm_compute; discriminate |].
  split; [by_evaluation |].
  vm_compute. reflexivity.
Qed.

Lemma sales_join_discards_inventory_demand_witness :
  exists dfp dfp0 agg,
    prepare_prediction_data (SK := offline) two_products_with_demand
      (Some sales_of_first) = Ok dfp
    /\ cols dfp !! "avg_daily_demand" = Some [CNum (Fin 10); CNum (Fin 10)]
    /\ cols dfp !! "avg_daily_demand_x" = Some [CNum (Fin 3); CNum (Fin 3)]
    /\ aggregate_sales (SK := offline) sales_of_first = Ok agg
    /\ cols dfp !! "avg_daily_demand_y"
       = Some (map (fun c => CNum (from_option agg_mean NaN
                                    match c with
                                    | CStr q => agg !! q
                                    | CNum _ => None
                                    end)) [CStr "P1"; CStr "P2"])
    /\ cols dfp !! "stock_coverage_days"
       = Some (of_nums (zip_with fdiv [Fin 5; Fin 7] [Fin 10; Fin 10]))
    /\ prepare_prediction_data (SK := offline) two_products_with_demand None
       = Ok dfp0
    /\ cols dfp0 !! "avg_daily_demand" = Some [CNum (Fin 3); CNum (Fin 3)].
Proof.
  apply (sales_join_discards_inventory_demand (SK := offline)
           two_products_with_demand sales_of_first
           [CStr "P1"; CStr "P2"] [CNum (Fin 3); CNum (Fin 3)] [Fin 5; Fin 7]).
  - unfold wf_frame. apply (bool_decide_unpack _). vm_compute. reflexivity.
  - vm_compute. reflexivity.
  - vm_compute. reflexivity.
  - vm_compute. reflexivity.
  - reflexivity.
  - intros col H. vm_compute in H. discriminate.
  - intros col H. vm_compute in H. discriminate.
  - split.
    + eexists. vm_compute. reflexivity.
    + eexists. vm_compute. reflexivity.
    + eexists. split; [vm_compute; reflexivity | reflexivity].
    + eexists. split; [vm_compute; reflexivity | reflexivity].
Defined.


(** ** Encoders at inference time *)

Lemma index_of_In (s : string) (classes : list string) :
  In s classes -> is_Some (index_of s classes).
Proof.
  induction classes as [| t classes IH]; cbn; [done |].
  intros H. destruct (String.eqb_spec s t) as [-> | Hne]; [eauto |].
  destruct H as [-> | H]; [done |].
  destruct (IH H) as [i ->]. cbn. eauto.
Qed.

(** An encoder never meets an unseen label among the labels it knows. *)
Lemma transform_known (classes y : list string) :
  (forall s, In s y -> In s classes) -> returns (transform classes y).
Proof.
  induction y as [| s y IH]; cbn; intros H; [by eexists |].
  destruct (index_of_In s classes) as [i ->]; [apply H; by left |].
  destruct IH as [zs ->]; [intros t Ht; apply H; by right |].
  cbn. by eexists.
Qed.

Lemma dict_zip_fold_None (l : list (string * Z)) (d : gmap string Z) (s : string) :
  d !! s = None -> ~ In s (map fst l) ->
  fold_left (fun d kv => <[kv.1 := kv.2]> d) l d !! s = None.
Proof.
  revert d. induction l as [| [k v] l IH]; cbn; intros d Hd Hs; [exact Hd |].
  apply IH; [| tauto].
  rewrite lookup_insert_ne; [exact Hd | intros ->; tauto].
Qed.

Lemma In_zip_fst {A B} (l : list A) (k : list B) (x : A) :
  In x (map fst (zip l k)) -> In x l.
Proof.
  revert k. induction l as [| a l IH]; intros [| b k]; cbn; try tauto.
  intros [-> | H]; [by left | right; by eapply IH].
Qed.

Lemma dict_zip_unseen (classes : list string) (codes : list Z) (s : string) :
  ~ In s classes -> dict_zip classes codes !! s = None.
Proof.
  intros H. unfold dict_zip. apply dict_zip_fold_None; [done |].
  intros Hin. apply H. by eapply In_zip_fst.
Qed.

(** A value the encoder has not seen is given the sentinel -1. *)
Lemma encode_with_unseen (classes : list string) (codes : list Z)
  (y : list cell) (i : nat) (c : cell) :
  y !! i = Some c ->
  (forall s, c = CStr s -> ~ In s classes) ->
  encode_with classes codes y !! i = Some (num_of_Z (-1)).
Proof.
  intros Hi Hc. unfold encode_with, fillna, series_map.
  rewrite !lookup_map, Hi. cbn.
  destruct c as [x | s]; [reflexivity |].
  by rewrite dict_zip_unseen by (by apply Hc).
Qed.

Lemma append_inj_l (a b s : string) : a +:+ s = b +:+ s -> a = b.
Proof.
  revert b. induction a as [| x a IH]; intros [| y b] H.
  - reflexivity.
  - apply (f_equal String.length) in H.
    rewrite !string_length_app in H. simpl in H. lia.
  - apply (f_equal String.length) in H.
    rewrite !string_length_app in H. simpl in H. lia.
  - simpl in H. injection H as -> H. f_equal. by apply IH.
Qed.

(** *** The codes of the labels an encoder knows *)

Lemma index_of_lookup (s : string) (classes : list string) (i : nat) :
  index_of s classes = Some i -> classes !! i = Some s.
Proof.
  revert i. induction classes as [| t classes IH]; intros i; cbn; [done |].
  destruct (String.eqb_spec s t) as [-> | Hne].
  - by intros [= <-].
  - destruct (index_of s classes) as [j |]; cbn; [| done].
    intros [= <-]. by apply IH.
Qed.

Lemma index_of_inj (s t : string) (classes : list string) (i : nat) :
  index_of s classes = Some i -> index_of t classes = Some i -> s = t.
Proof.
  intros Hs Ht. apply index_of_lookup in Hs. apply index_of_lookup in Ht.
  congruence.
Qed.

(** [transform] gives every label its index. *)
Lemma transform_codes (classes y : list string) (codes : list Z) :
  transform classes y = Ok codes ->
  Forall2 (fun s z => exists i, index_of s classes = Some i /\ z = Z.of_nat i)
          y codes.
Proof.
  revert codes. induction y as [| s y IH]; intros codes; cbn.
  - intros [= <-]. constructor.
  - destruct (index_of s classes) as [i |] eqn:E; [| discriminate].
    destruct (transform classes y) as [zs |]; [| discriminate].
    cbn. intros [= <-]. constructor; [by exists i | by apply IH].
Qed.

Lemma dict_zip_fold_value (l : list (string * Z)) (d : gmap string Z)
  (s : string) (v : Z) :
  (forall z, In (s, z) l -> z = v) ->
  d !! s = Some v \/ In s (map fst l) ->
  fold_left (fun d kv => <[kv.1 := kv.2]> d) l d !! s = Some v.
Proof.
  revert d. induction l as [| [k z] l IH]; cbn; intros d Hval Hin.
  - destruct Hin as [H | []]. exact H.
  - apply IH; [intros z' Hz'; apply Hval; by right |].
    destruct (decide (k = s)) as [-> | Hne].
    + left. rewrite lookup_insert_eq. f_equal. apply Hval. by left.
    + rewrite lookup_insert_ne by done.
      destruct Hin as [H | [H | H]]; [by left | done | by right].
Qed.

(** The dict of lines 99-100 gives a label of the encoder its index. *)
Lemma dict_zip_known (classes : list string) (codes : list Z) (s : string) :
  transform classes classes = Ok codes ->
  In s classes ->
  exists i, index_of s classes = Some i
            /\ dict_zip classes codes !! s = Some (Z.of_nat i).
Proof.
  intros Ht Hs. apply transform_codes in Ht.
  destruct (index_of_In s classes Hs) as [i Hi]. exists i. split; [exact Hi |].
  unfold dict_zip. apply dict_zip_fold_value.
  - intros z Hz. apply list_elem_of_In in Hz.
    apply list_elem_of_lookup in Hz as [k Hk].
    apply lookup_zip_with_Some in Hk as (s' & z' & [= <- <-] & Hs' & Hz').
    destruct (Forall2_lookup_lr _ _ _ _ _ _ Ht Hs' Hz') as (j & Hj & ->).
    congruence.
  - right. pose proof (Forall2_length _ _ _ Ht) as Hlen.
    clear -Hs Hlen. revert codes Hlen.
    induction classes as [| t classes IH]; intros [| z codes] Hlen;
      cbn in *; try done.
    destruct Hs as [-> | Hs]; [by left | right].
    apply IH; [exact Hs | lia].
Qed.

Lemma category_codes_known (classes : list string) (codes : list Z)
  (categories : list string) :
  transform classes classes = Ok codes ->
  (forall l, In l categories -> In l classes) ->
  exists zs,
    category_codes (dict_zip classes codes) (map CStr categories) = Some zs
    /\ Forall2 (fun l z => exists i, index_of l classes = Some i
                                     /\ z = Z.of_nat i) categories zs.
Proof.
  intros Ht. induction categories as [| l categories IH]; intros Hin; cbn.
  - exists []. split; [reflexivity | constructor].
  - destruct (dict_zip_known classes codes l Ht) as (i & Hi & ->);
      [apply Hin; by left |].
    destruct IH as (zs & -> & Hzs); [intros l' Hl'; apply Hin; by right |].
    exists (Z.of_nat i :: zs). split; [reflexivity |].
    constructor; [by exists i | exact Hzs].
Qed.

Lemma codes_NoDup (classes categories : list string) (zs : list Z) :
  NoDup categories ->
  Forall2 (fun l z => exists i, index_of l classes = Some i /\ z = Z.of_nat i)
          categories zs ->
  NoDup zs.
Proof.
  intros Hnd H. induction H as [| l z categories zs (i & Hi & ->) H IH].
  - constructor.
  - apply NoDup_cons in Hnd as [Hl Hnd]. apply NoDup_cons. split; [| by apply IH].
    intros Hz. apply list_elem_of_lookup in Hz as [k Hk].
    destruct (Forall2_lookup_r _ _ _ _ _ H Hk) as (l' & Hl' & j & Hj & Hij).
    apply Nat2Z.inj in Hij. subst j.
    assert (l = l') by (by eapply index_of_inj). subst l'.
    apply Hl. by eapply list_elem_of_lookup_2.
Qed.

(** When the encoder knows every category of a Categorical column, the
    [map] of lines 98-100 is a Categorical again. *)
Lemma map_categories_known (classes : list string) (codes : list Z)
  (categories : list string) :
  transform classes classes = Ok codes ->
  NoDup categories ->
  (forall l, In l categories -> In l classes) ->
  is_Some (map_categories (dict_zip classes codes) (map CStr categories)).
Proof.
  intros Ht Hnd Hin. unfold map_categories.
  destruct (category_codes_known classes codes categories Ht Hin) as (zs & -> & Hzs).
  rewrite bool_decide_eq_true_2 by (by eapply codes_NoDup). by eexists.
Qed.

Lemma series_map_missing (d : gmap string Z) (y : list cell) (i : nat) :
  y !! i = Some (CNum NaN) -> existsb is_missing (series_map d y) = true.
Proof.
  intros Hi. apply existsb_exists. exists (CNum NaN). split; [| reflexivity].
  apply list_elem_of_In. apply list_elem_of_lookup. exists i.
  unfold series_map. by rewrite lookup_map, Hi.
Qed.

Section Encoders.
Context `{SK : Sklearn}.

(** A round of the loop on a plain column: the sentinel code of lines
    98-101. *)
Lemma encode_known_plain (st : StockSenseModel) (df : DataFrame) (col : string) :
  categorical df !! col = None ->
  encodable st df [col] ->
  exists df',
    encode_known col st df = Ok df'
    /\ nrows df' = nrows df
    /\ (forall c, c <> col +:+ "_encoded" ->
                  cols df' !! c = cols df !! c
                  /\ categorical df' !! c = categorical df !! c)
    /\ (forall classes y,
          encoders st !! col = Some (mkEncoder (Some classes)) ->
          cols df !! col = Some y ->
          exists codes, cols df' !! (col +:+ "_encoded")
                        = Some (encode_with classes codes y)).
Proof.
  intros Hplain Henc. unfold encode_known.
  destruct (encoders st !! col) as [[cl] |] eqn:E.
  - destruct (Henc col _ (or_introl eq_refl) E) as [[classes Hcl] [y Hy]].
    cbn in Hcl. subst cl.
    rewrite (getitem_Some _ _ _ Hy). cbn.
    destruct (transform_known classes classes) as [codes ->]; [done |]. cbn.
    rewrite Hplain.
    eexists. split; [reflexivity |]. split; [reflexivity |]. split.
    + intros c Hc. split; [by rewrite cols_setitem_ne |].
      cbn. by rewrite lookup_delete_ne.
    + intros classes' y' [= <-] Hy'. rewrite Hy in Hy'. injection Hy' as <-.
      exists codes. apply cols_setitem_eq.
  - exists df. repeat split; auto. intros; discriminate.
Qed.

(** A round of the loop on a Categorical column all of whose categories
    the encoder knows: [fillna(-1)] raises. *)
Lemma encode_known_all_categories (st : StockSenseModel) (df : DataFrame)
  (col : string) (classes categories : list string) (y : list cell) :
  encoders st !! col = Some (mkEncoder (Some classes)) ->
  cols df !! col = Some y ->
  categorical df !! col = Some (map CStr categories) ->
  NoDup categories ->
  (forall l, In l categories -> In l classes) ->
  fillna_validates = true \/ (exists i, y !! i = Some (CNum NaN)) ->
  encode_known col st df = Raise TypeError.
Proof.
  intros E Hy Hcat Hnd Hin Htrigger. unfold encode_known.
  rewrite E. rewrite (getitem_Some _ _ _ Hy). cbn.
  destruct (transform_known classes classes) as [codes Hcodes]; [done |].
  rewrite Hcodes. cbn. rewrite Hcat.
  destruct (map_categories_known classes codes categories Hcodes Hnd Hin)
    as [new ->].
  unfold fillna_categorical.
  replace (fillna_validates || existsb is_missing (series_map (dict_zip classes codes) y))
    with true; [reflexivity |].
  symmetry. destruct Htrigger as [-> | [i Hi]]; [reflexivity |].
  rewrite (series_map_missing _ _ _ Hi). apply orb_true_r.
Qed.

(** C4.  For every trained or loaded model whose price encoder was fitted
    on all four price buckets, inference on a table with its raw columns
    raises: [price_category] is the Categorical [pd.cut] made, its [map]
    through the encoder's dict is a Categorical again, and [fillna(-1)]
    raises a TypeError, -1 being none of its categories.  This happens on
    every table with the installed pandas checking the fill value always,
    and with every pandas on a table that has a price in no bucket (0,
    negative or missing).  The unseen value of [category] in such a table
    is then not mapped to -1: feature preparation and [predict] raise. *)
Theorem inference_raises_when_all_buckets_known (st : StockSenseModel)
  (data : DataFrame) (price avg ts lt sf scd : list fnum) (dv : list cell)
  (classes : list string) :
  is_trained st = true ->
  cols data !! "demand_variability" = Some dv ->
  cols data !! "price" = Some (of_nums price) ->
  cols data !! "avg_daily_demand" = Some (of_nums avg) ->
  cols data !! "total_stockouts" = Some (of_nums ts) ->
  cols data !! "supplier_lead_time" = Some (of_nums lt) ->
  cols data !! "seasonal_factor" = Some (of_nums sf) ->
  cols data !! "stock_coverage_days" = Some (of_nums scd) ->
  categorical data !! "category" = None ->
  categorical data !! "subcategory" = None ->
  encodable st data ["category"; "subcategory"]%string ->
  encoders st !! "price_category" = Some (mkEncoder (Some classes)) ->
  (forall l, In l ["Low"; "Medium"; "High"; "Premium"]%string -> In l classes) ->
  fillna_validates = true
  \/ (exists i x, price !! i = Some x
                  /\ cut_value 0 20 100 500 "Low" "Medium" "High" "Premium" x
                     = CNum NaN) ->
  exists de,
    engineer_features data = Ok de
    /\ prepare_features st de false = (st, Raise TypeError)
    /\ predict st data = Raise TypeError.
Proof.
  intros Htrained Hdv Hprice Havg Hts Hlt Hsf Hscd Hc1 Hc2 Hcat Henc Hall Htrigger.
  pose proof (engineer_features_ok data price avg ts lt sf scd dv
                Hdv Hprice Havg Hts Hlt Hsf Hscd) as Heng.
  set (de := engineered data price avg ts lt sf scd dv) in *.
  assert (Hsame : forall c, c = "category"%string \/ c = "subcategory"%string ->
                  cols de !! c = cols data !! c
                  /\ categorical de !! c = categorical data !! c).
  { intros c Hc. subst de. unfold engineered. split.
    - destruct Hc as [-> | ->]; by frame_lookup.
    - cbn. destruct Hc as [-> | ->];
        by repeat first [rewrite lookup_delete_ne by done
                        | rewrite lookup_insert_ne by done]. }
  assert (Hbucket : cols de !! "price_category"
                    = Some (map (cut_value 0 20 100 500 "Low" "Medium" "High" "Premium")
                                price)
                    /\ categorical de !! "price_category"
                       = Some (map CStr ["Low"; "Medium"; "High"; "Premium"]%string)).
  { subst de. unfold engineered. split; [by frame_lookup |].
    cbn. by repeat first [rewrite lookup_delete_ne by done
                         | rewrite lookup_insert_ne by done
                         | rewrite lookup_insert_eq]. }
  destruct Hbucket as [Hbcol Hbcat].
  (* the two plain columns *)
  destruct (encode_known_plain st de "category") as (d1 & H1 & _ & Hs1 & _).
  { destruct (Hsame "category"%string) as [_ ->]; [by left | exact Hc1]. }
  { intros c enc [<- | []] E.
    destruct (Hcat "category"%string enc) as [Hf Hp]; [cbn; tauto | exact E |].
    split; [exact Hf |]. destruct (Hsame "category"%string) as [-> _]; [by left | exact Hp]. }
  destruct (encode_known_plain st d1 "subcategory") as (d2 & H2 & _ & Hs2 & _).
  { destruct (Hs1 "subcategory"%string) as [_ ->]; [done |].
    destruct (Hsame "subcategory"%string) as [_ ->]; [by right | exact Hc2]. }
  { intros c enc [<- | []] E.
    destruct (Hcat "subcategory"%string enc) as [Hf Hp]; [cbn; tauto | exact E |].
    split; [exact Hf |].
    destruct (Hs1 "subcategory"%string) as [-> _]; [done |].
    destruct (Hsame "subcategory"%string) as [-> _]; [by right | exact Hp]. }
  (* the Categorical column *)
  assert (H3 : encode_known "price_category" st d2 = Raise TypeError).
  { apply (encode_known_all_categories st d2 "price_category" classes
             ["Low"; "Medium"; "High"; "Premium"]%string
             (map (cut_value 0 20 100 500 "Low" "Medium" "High" "Premium") price)).
    - exact Henc.
    - destruct (Hs2 "price_category"%string) as [-> _]; [done |].
      destruct (Hs1 "price_category"%string) as [-> _]; [done | exact Hbcol].
    - destruct (Hs2 "price_category"%string) as [_ ->]; [done |].
      destruct (Hs1 "price_category"%string) as [_ ->]; [done | exact Hbcat].
    - apply (bool_decide_unpack _). vm_compute. reflexivity.
    - exact Hall.
    - destruct Htrigger as [Hv | (i & x & Hi & Hx)]; [by left | right].
      exists i. by rewrite lookup_map, Hi, <- Hx. }
  assert (Hprep : prepare_features st de false = (st, Raise TypeError)).
  { unfold prepare_features, categorical_cols. cbn [encode_loop].
    by rewrite H1, H2, H3. }
  exists de. split; [exact Heng |]. split; [exact Hprep |].
  unfold predict. rewrite Htrained. cbn [negb]. rewrite Heng. cbn [bind].
  by rewrite Hprep.
Qed.

End Encoders.


Lemma inference_raises_when_all_buckets_known_witness :
  exists de,
    engineer_features unpriced_product = Ok de
    /\ prepare_features loaded_model de false = (loaded_model, Raise TypeError)
    /\ predict loaded_model unpriced_product = Raise TypeError.
Proof.
  apply (inference_raises_when_all_buckets_known (SK := constant 1 (Fin (4 # 5)))
           loaded_model unpriced_product [Fin 0] [Fin 5] [Fin 2] [Fin 7] [Fin 1]
           [Fin 3] [CNum (Fin (1 # 5))] ["High"; "Low"; "Medium"; "Premium"]%string).
  - reflexivity.
  - vm_compute. reflexivity.
  - vm_compute. reflexivity.
  - vm_compute. reflexivity.
  - vm_compute. reflexivity.
  - vm_compute. reflexivity.
  - vm_compute. reflexivity.
  - vm_compute. reflexivity.
  - reflexivity.
  - reflexivity.
  - intros col enc Hcol E. cbn in Hcol.
    destruct Hcol as [<- | [<- | []]];
      vm_compute in E; injection E as <-; split; eexists; vm_compute; reflexivity.
  - vm_compute. reflexivity.
  - cbn. intros l [<- | [<- | [<- | [<- | []]]]]; tauto.
  - right. exists 0%nat, (Fin 0). split; reflexivity.
Defined.

(** ** The dashboard counts *)

(** C9.  On one product whose heuristic score is 0.6, a score that
    [_categorize_risk] puts in the medium bucket alone, the dashboard counts
    the product as high risk (its prediction is 1, for 0.6 > 0.5) and as
    medium risk (0.3 <= 0.6 <= 0.7) at once, and the low count, computed as
    the rest, is -1. *)
Theorem dashboard_counts_product_twice :
  exists results q d,
    predict_batch (SK := offline) broken_predictor one_product None "2024-01-01"
    = Ok results
    /\ cols results !! "risk_score" = Some [CNum (Fin q)]
    /\ q == 6 # 10
    /\ cols results !! "risk_category" = Some [CStr "Medium Risk"]
    /\ dashboard_risk_distribution (SK := offline) broken_predictor one_product
         "2024-01-01" = Ok d
    /\ high_risk_count d = Fin 1
    /\ medium_risk_count d = Fin 1
    /\ low_risk_count d = Fin (-1)
    /\ flt (low_risk_count d) (Fin 0) = true.
Proof.
  eexists _, _, _.
  split; [by_evaluation |].
  split; [by_evaluation |].
  split; [vm_compute; reflexivity |].
  split; [vm_compute; reflexivity |].
  split; [by_evaluation |].
  repeat split.
Qed.


(** ** The trained flag *)

Lemma passes_guard_raise {A B} (e : exn) :
  passes_guard (@Raise A e) -> passes_guard (@Raise B e).
Proof. intros H [= ->]. by apply H. Qed.

Lemma passes_guard_bind {A B} (m : result A) (f : A -> result B) :
  passes_guard m -> (forall a, m = Ok a -> passes_guard (f a)) ->
  passes_guard (x <- m ;; f x).
Proof.
  destruct m as [a | e]; cbn; intros Hm Hf; [by apply Hf |].
  by eapply passes_guard_raise.
Qed.

Lemma passes_guard_ok {A} (a : A) : passes_guard (Ok a).
Proof. discriminate. Qed.

Lemma passes_guard_getitem (df : DataFrame) (c : string) : passes_guard (getitem df c).
Proof. unfold getitem. destruct (cols df !! c); discriminate. Qed.

Lemma passes_guard_nums (col : list cell) : passes_guard (nums col).
Proof.
  induction col as [| [x | s] col IH]; cbn; try discriminate.
  destruct (nums col); cbn; [discriminate | exact IH].
Qed.

Lemma passes_guard_lift {A} (r : lib_result A) : passes_guard (lift r).
Proof. destruct r; discriminate. Qed.

Lemma passes_guard_transform (classes y : list string) :
  passes_guard (transform classes y).
Proof.
  induction y as [| s y IH]; cbn; [discriminate |].
  destruct (index_of s classes); [| discriminate].
  destruct (transform classes y); cbn; [discriminate | exact IH].
Qed.

Ltac guard_steps :=
  repeat first
    [ apply passes_guard_ok
    | apply passes_guard_getitem
    | apply passes_guard_nums
    | apply passes_guard_lift
    | apply passes_guard_transform
    | apply passes_guard_bind; [| intros ? _] ].

Lemma passes_guard_engineer (data : DataFrame) : passes_guard (engineer_features data).
Proof.
  unfold engineer_features, cut, series_div_scalar, series_gt_scalar, series_div.
  guard_steps.
Qed.

Section Trained.
Context `{SK : Sklearn}.

Lemma passes_guard_encode_known (col : string) (st : StockSenseModel) (df : DataFrame) :
  passes_guard (encode_known col st df).
Proof.
  unfold encode_known. destruct (encoders st !! col) as [enc |]; [| discriminate].
  apply passes_guard_bind; [apply passes_guard_getitem | intros y _].
  apply passes_guard_bind; [destruct (classes_ enc); discriminate | intros cl _].
  apply passes_guard_bind; [apply passes_guard_transform | intros codes _].
  destruct (categorical df !! col) as [categories |]; [| apply passes_guard_ok].
  destruct (map_categories (dict_zip cl codes) categories);
    [| apply passes_guard_ok].
  apply passes_guard_bind; [| intros ? _; apply passes_guard_ok].
  unfold fillna_categorical.
  destruct (fillna_validates || existsb is_missing _); discriminate.
Qed.

Lemma passes_guard_encode_loop (todo : list string) (st : StockSenseModel)
  (df : DataFrame) :
  passes_guard (encode_loop false todo st df).2.
Proof.
  revert df. induction todo as [| col todo IH]; intros df; cbn; [discriminate |].
  pose proof (passes_guard_encode_known col st df) as H.
  destruct (encode_known col st df) as [df1 | e]; [apply IH | exact H].
Qed.

Lemma passes_guard_prepare (st : StockSenseModel) (df : DataFrame) :
  passes_guard (prepare_features st df false).2.
Proof.
  unfold prepare_features.
  pose proof (passes_guard_encode_loop categorical_cols st df) as H.
  destruct (encode_loop false categorical_cols st df) as [st1 [dm | e]];
    [discriminate | cbn in *; by eapply passes_guard_raise].
Qed.

(** [predict] raises its own error exactly on an untrained model. *)
Lemma predict_guard (st : StockSenseModel) (data : DataFrame) :
  (is_trained st = false -> predict st data = Raise (ValueError not_trained_msg))
  /\ (is_trained st = true -> predict st data <> Raise (ValueError not_trained_msg)).
Proof.
  unfold predict. split; intros ->; cbn [negb]; [reflexivity |].
  apply passes_guard_bind; [apply passes_guard_engineer | intros de _].
  apply passes_guard_bind; [apply passes_guard_prepare | intros Xc _].
  apply passes_guard_bind.
  { unfold apply_scaler. destruct (scaler st) as [[| sc] |];
      [discriminate | apply passes_guard_lift | discriminate]. }
  intros X _. apply passes_guard_bind.
  { unfold model_predict. destruct (model st) as [[k | c] |];
      [discriminate | apply passes_guard_lift | discriminate]. }
  intros ps _. apply passes_guard_bind; [| intros; apply passes_guard_ok].
  unfold model_predict_proba. destruct (model st) as [[k | c] |];
    [discriminate | apply passes_guard_lift | discriminate].
Qed.

Lemma encode_fit_is_trained (col : string) (st : StockSenseModel) (df : DataFrame) :
  is_trained (encode_fit col st df).1 = is_trained st.
Proof.
  unfold encode_fit.
  destruct (encoders st !! col); destruct (getitem df col) as [y | e]; cbn;
    try reflexivity;
    destruct (fit_transform y) as [[classes codes] | e]; reflexivity.
Qed.

Lemma encode_loop_is_trained (b : bool) (todo : list string)
  (st : StockSenseModel) (df : DataFrame) :
  is_trained (encode_loop b todo st df).1 = is_trained st.
Proof.
  revert st df. induction todo as [| col todo IH]; intros st df; cbn; [reflexivity |].
  destruct b.
  - pose proof (encode_fit_is_trained col st df) as H.
    destruct (encode_fit col st df) as [st1 [df1 | e]]; cbn in *.
    + by rewrite IH.
    + exact H.
  - destruct (encode_known col st df) as [df1 | e]; [apply IH | reflexivity].
Qed.

Lemma prepare_features_is_trained (st : StockSenseModel) (df : DataFrame) (b : bool) :
  is_trained (prepare_features st df b).1 = is_trained st.
Proof.
  unfold prepare_features.
  pose proof (encode_loop_is_trained b categorical_cols st df) as H.
  destruct (encode_loop b categorical_cols st df) as [st1 [dm | e]]; [| exact H].
  destruct b; exact H.
Qed.

Lemma fit_model_is_trained (st : StockSenseModel) (kind : string)
  (X_train X_test : matrix) (y_train : list cell) :
  is_trained (fit_model st kind X_train X_test y_train).1 = is_trained st.
Proof.
  unfold fit_model.
  repeat case_bool_decide.
  - by destruct (lift (fit kind X_train y_train)).
  - destruct (lift (scaler_fit_transform X_train)) as [[sc Xs] | e]; [| reflexivity].
    destruct (lift (scaler_transform sc X_test)) as [Xt | e]; [| reflexivity].
    by destruct (lift (fit kind Xs y_train)).
  - reflexivity.
Qed.

(** [train] sets the flag when, and only when, it completes. *)
Lemma train_is_trained (st : StockSenseModel) (data : DataFrame)
  (target kind : string) :
  is_trained (train st data target kind).1
  = is_trained st || completed (train st data target kind).2.
Proof.
  unfold train.
  destruct (engineer_features data) as [de | e]; cbn; [| by rewrite orb_false_r].
  pose proof (prepare_features_is_trained st de true) as H1.
  destruct (prepare_features st de true) as [st1 [[X names] | e]]; cbn in *;
    [| by rewrite orb_false_r].
  destruct (getitem de target) as [y | e]; cbn; [| by rewrite orb_false_r].
  destruct (lift (train_test_split X y)) as [[[[Xtr Xte] ytr] yte] | e]; cbn;
    [| by rewrite orb_false_r].
  pose proof (fit_model_is_trained st1 kind Xtr Xte ytr) as H2.
  destruct (fit_model st1 kind Xtr Xte ytr) as [st2 [Xt | e]]; cbn in *;
    [| by rewrite orb_false_r, H2].
  match goal with
  | |- context [match ?r with Ok _ => _ | Raise _ => _ end] => destruct r
  end; cbn.
  - by rewrite orb_true_r.
  - by rewrite orb_false_r, H2.
Qed.

(** So does [load_model]. *)
Lemma load_model_is_trained (st : StockSenseModel) (files : gmap string Artifact)
  (filepath : string) :
  is_trained (load_model st files filepath).1
  = is_trained st || completed (load_model st files filepath).2.
Proof.
  unfold load_model.
  destruct (joblib_load files filepath) as [a | e]; cbn; [| by rewrite orb_false_r].
  destruct (art_model a); cbn; [| by rewrite orb_false_r].
  destruct (art_encoders a); cbn; [| by rewrite orb_false_r].
  destruct (art_feature_names a); cbn; [by rewrite orb_true_r | by rewrite orb_false_r].
Qed.

Lemma exec_is_trained (c : call) (st : StockSenseModel) (files : gmap string Artifact) :
  is_trained (exec c (st, files)).1.1 = is_trained st || (exec c (st, files)).2.
Proof.
  destruct c as [data target kind | filepath | filepath now | data]; cbn.
  - pose proof (train_is_trained st data target kind) as H.
    by destruct (train st data target kind).
  - pose proof (load_model_is_trained st files filepath) as H.
    by destruct (load_model st files filepath).
  - destruct (save_model st files filepath now). cbn. by rewrite orb_false_r.
  - by rewrite orb_false_r.
Qed.

Lemma run_is_trained (calls : list call) (st : StockSenseModel)
  (files : gmap string Artifact) :
  is_trained (run calls (st, files)).1.1 = is_trained st || (run calls (st, files)).2.
Proof.
  revert st files. induction calls as [| c calls IH]; intros st files.
  - cbn. by rewrite orb_false_r.
  - change (run (c :: calls) (st, files))
      with (let '(w1, ok) := exec c (st, files) in
            let '(w2, ok') := run calls w1 in (w2, ok || ok')).
    pose proof (exec_is_trained c st files) as Hc.
    destruct (exec c (st, files)) as [[st1 files1] ok].
    pose proof (IH st1 files1) as Hr.
    destruct (run calls (st1, files1)) as [[st2 files2] ok'].
    cbn [fst snd] in *. rewrite Hr, Hc. by rewrite orb_assoc.
Qed.

(** C8.  On a model instance created by [__init__] and used through any
    session of calls ([train], [load_model], [save_model], [predict], in
    any order, on any file system), [predict] raises the error of an
    untrained model (the ValueError the specification calls
    NotTrainedError) if no [train] and no [load_model] of the session has
    completed, and does not raise that error once one of them has. *)
Theorem predict_requires_training (calls : list call)
  (files : gmap string Artifact) (data : DataFrame) :
  ((run calls (init, files)).2 = false ->
   predict (run calls (init, files)).1.1 data = Raise (ValueError not_trained_msg))
  /\ ((run calls (init, files)).2 = true ->
      predict (run calls (init, files)).1.1 data <> Raise (ValueError not_trained_msg)).
Proof.
  pose proof (run_is_trained calls init files) as H. cbn [is_trained init orb] in H.
  split; intros Hok; apply predict_guard; by rewrite H.
Qed.

End Trained.

Lemma predict_requires_training_witness :
  predict (SK := constant 1 (Fin (4 # 5)))
    (run [CallLoad "stockout_model.pkl"; CallSave "copy.pkl" "2024-01-01"]
         (init, ∅)).1.1 new_product
  = Raise (ValueError not_trained_msg)
  /\ predict (SK := constant 1 (Fin (4 # 5)))
       (run [CallTrain training_data "is_high_risk" "random_forest"]
            (init, ∅)).1.1 new_product
     <> Raise (ValueError not_trained_msg)
  /\ predict (SK := constant 1 (Fin (4 # 5)))
       (run [CallLoad "stockout_model.pkl"]
            (init, {[ "stockout_model.pkl"%string := sample_artifact ]})).1.1
       new_product
     <> Raise (ValueError not_trained_msg).
Proof.
  split; [| split].
  - apply (predict_requires_training (SK := constant 1 (Fin (4 # 5)))).
    vm_compute. reflexivity.
  - apply (predict_requires_training (SK := constant 1 (Fin (4 # 5)))).
    vm_compute. reflexivity.
  - apply (predict_requires_training (SK := constant 1 (Fin (4 # 5)))).
    vm_compute. reflexivity.
Defined.


(** ** Saving, loading and training ([model.py]) *)

Section Persistence.
Context `{SK : Sklearn}.

Lemma encode_loop_inference_state (todo : list string) (st : StockSenseModel)
  (df : DataFrame) :
  (encode_loop false todo st df).1 = st.
Proof.
  revert df. induction todo as [| col todo IH]; intros df; [reflexivity |].
  cbn [encode_loop].
  destruct (encode_known col st df) as [df1 | e]; [apply IH | reflexivity].
Qed.

Lemma encode_fit_model (col : string) (st : StockSenseModel) (df : DataFrame) :
  model (encode_fit col st df).1 = model st.
Proof.
  unfold encode_fit.
  destruct (encoders st !! col); destruct (getitem df col) as [y | e]; cbn;
    try reflexivity;
    destruct (fit_transform y) as [[classes codes] | e]; reflexivity.
Qed.

Lemma encode_loop_model (b : bool) (todo : list string) (st : StockSenseModel)
  (df : DataFrame) :
  model (encode_loop b todo st df).1 = model st.
Proof.
  revert st df. induction todo as [| col todo IH]; intros st df; [reflexivity |].
  cbn [encode_loop]. destruct b.
  - pose proof (encode_fit_model col st df) as H.
    destruct (encode_fit col st df) as [st1 [df1 | e]]; cbn [fst] in *.
    + by rewrite IH.
    + exact H.
  - destruct (encode_known col st df) as [df1 | e]; [apply IH | reflexivity].
Qed.

Lemma prepare_features_model (st : StockSenseModel) (df : DataFrame) (b : bool) :
  model (prepare_features st df b).1 = model st.
Proof.
  unfold prepare_features.
  pose proof (encode_loop_model b categorical_cols st df) as H.
  destruct (encode_loop b categorical_cols st df) as [st1 [dm | e]]; [| exact H].
  destruct b; exact H.
Qed.

(** A session that has not trained or loaded keeps the model untrained and
    the files as they were. *)
Lemma exec_untrained (c : call) (st : StockSenseModel) (files : gmap string Artifact) :
  is_trained st = false ->
  (exec c (st, files)).2 = false ->
  is_trained (exec c (st, files)).1.1 = false
  /\ (exec c (st, files)).1.2 = files.
Proof.
  intros Hst Hflag. split.
  - rewrite exec_is_trained, Hst, Hflag. reflexivity.
  - destruct c as [data target kind | filepath | filepath now | data];
      cbn [exec] in *.
    + by destruct (train st data target kind).
    + by destruct (load_model st files filepath).
    + unfold save_model. rewrite Hst. reflexivity.
    + reflexivity.
Qed.

Lemma run_untrained (calls : list call) (st : StockSenseModel)
  (files : gmap string Artifact) :
  is_trained st = false ->
  (run calls (st, files)).2 = false ->
  (run calls (st, files)).1.2 = files.
Proof.
  revert st files. induction calls as [| c calls IH]; intros st files Hst Hflag.
  - reflexivity.
  - change (run (c :: calls) (st, files))
      with (let '(w1, ok) := exec c (st, files) in
            let '(w2, ok') := run calls w1 in (w2, ok || ok')) in *.
    pose proof (exec_untrained c st files Hst) as Hc.
    destruct (exec c (st, files)) as [[st1 files1] ok].
    pose proof (IH st1 files1) as Hr.
    destruct (run calls (st1, files1)) as [[st2 files2] ok'].
    cbn [fst snd] in *.
    apply orb_false_iff in Hflag as [-> ->].
    destruct Hc as [Hc1 ->]; [reflexivity |].
    by apply Hr.
Qed.






(** X2.  A session on a fresh model in which no [train] and no
    [load_model] completes writes no file: every [save_model] in it raises
    before [joblib.dump]. *)
Theorem untrained_session_writes_no_file (calls : list call)
  (files : gmap string Artifact) :
  (run calls (init, files)).2 = false ->
  (run calls (init, files)).1.2 = files.
Proof. intros H. by apply run_untrained. Qed.

(** X3.  [prepare_features] with [fit_encoders=False], the call [predict]
    makes, assigns no attribute of the model, whatever the table and
    whether or not it raises. *)
Theorem inference_preparation_leaves_model_unchanged (st : StockSenseModel)
  (df : DataFrame) :
  (prepare_features st df false).1 = st.
Proof.
  unfold prepare_features.
  pose proof (encode_loop_inference_state categorical_cols st df) as H.
  destruct (encode_loop false categorical_cols st df) as [st1 [dm | e]]; exact H.
Qed.

(** X4.  [train] does not reject a [model_type] other than 'random_forest',
    'xgboost' and 'logistic': on a fresh model it fits the encoders, creates
    no classifier, and fails at the evaluation with the AttributeError of
    [None.predict]; it never completes and the model stays untrained. *)
Theorem train_unknown_model_type_fails (data : DataFrame) (target kind : string) :
  kind <> "random_forest"%string -> kind <> "xgboost"%string ->
  kind <> "logistic"%string ->
  raises (train init data target kind).2
  /\ is_trained (train init data target kind).1 = false
  /\ (forall de st1 X names y X_train X_test y_train y_test,
        engineer_features data = Ok de ->
        prepare_features init de true = (st1, Ok (X, names)) ->
        getitem de target = Ok y ->
        train_test_split X y = inr (X_train, X_test, y_train, y_test) ->
        train init data target kind = (st1, Raise AttributeError)).
Proof.
  intros H1 H2 H3.
  assert (Hstep : forall de st1 X names y X_train X_test y_train y_test,
             engineer_features data = Ok de ->
             prepare_features init de true = (st1, Ok (X, names)) ->
             getitem de target = Ok y ->
             train_test_split X y = inr (X_train, X_test, y_train, y_test) ->
             train init data target kind = (st1, Raise AttributeError)).
  { intros de st1 X names y Xtr Xte ytr yte He Hp Hy Hs.
    unfold train. rewrite He, Hp, Hy, Hs. cbn [lift].
    unfold fit_model.
    rewrite bool_decide_eq_false_2 by (intros [? | ?]; done).
    rewrite bool_decide_eq_false_2 by done.
    pose proof (prepare_features_model init de true) as Hm.
    rewrite Hp in Hm. cbn in Hm. rewrite Hm. reflexivity. }
  assert (Hraise : raises (train init data target kind).2).
  { unfold train.
    destruct (engineer_features data) as [de | e] eqn:He; [| by eexists].
    destruct (prepare_features init de true) as [st1 [[X names] | e]] eqn:Hp;
      [| by eexists].
    destruct (getitem de target) as [y | e] eqn:Hy; [| by eexists].
    destruct (train_test_split X y) as [msg | [[[Xtr Xte] ytr] yte]] eqn:Hs;
      [by eexists |].
    cbn [lift]. unfold fit_model.
    rewrite bool_decide_eq_false_2 by (intros [? | ?]; done).
    rewrite bool_decide_eq_false_2 by done.
    pose proof (prepare_features_model init de true) as Hm.
    rewrite Hp in Hm. cbn in Hm. rewrite Hm. by eexists. }
  split; [exact Hraise |]. split; [| exact Hstep].
  rewrite train_is_trained. destruct Hraise as [e ->]. reflexivity.
Qed.


End Persistence.


Lemma untrained_session_writes_no_file_witness :
  (run (SK := offline)
       [CallSave "stockout_model.pkl" "2024-01-01"; CallLoad "missing.pkl";
        CallPredict new_product] (init, ∅)).1.2 = ∅.
Proof.
  apply (untrained_session_writes_no_file (SK := offline)).
  vm_compute. reflexivity.
Defined.

Lemma train_unknown_model_type_fails_witness :
  train (SK := constant 1 (Fin (4 # 5))) init training_data "is_high_risk" "svm"
  = ((train (SK := constant 1 (Fin (4 # 5))) init training_data
        "is_high_risk" "svm").1, Raise AttributeError)
  /\ is_trained (train (SK := constant 1 (Fin (4 # 5))) init training_data
                   "is_high_risk" "svm").1 = false.
Proof.
  destruct (train_unknown_model_type_fails (SK := constant 1 (Fin (4 # 5)))
              training_data "is_high_risk" "svm") as (_ & Hflag & _);
    [done | done | done |].
  split; [vm_compute; reflexivity | exact Hflag].
Defined.

